(** * synthetix-node-backend: the request pipeline of [server.js]

    A shallow embedding of [src/server.js]: the challenge/response
    authenticator ([/signup], [/verify]), the token check, the role gates,
    the indexing-API adapter and the central error responder.

    Conventions of the embedding.
    - JavaScript strings are [string]s of 8-bit code units; the model is
      exact on ASCII text, which covers wallet addresses, hex digests and
      HTTP header values.
    - [await] is sequential composition: a handler runs to completion
      before the next one is entered, and a request never shares mutable
      state with another one (the file has no module-level mutable
      binding).
    - The framework is express 4 on Node: [res.status] only stores its
      argument, [res.send] refuses a status that is no integer from 100
      to 999 by throwing, and an error the file's own responder throws
      is answered by express's final handler with its own 500 page.
    - Every observable step of a handler (a call into a library, a
      response, an exception nobody handles) is appended to a log, so
      that statements about order and about calls that did not happen can
      be made. *)

From Stdlib Require Import ZArith Lia Ascii String List.
From stdpp Require Import base strings gmap list.

Set Warnings "-register-all".

Local Open Scope string_scope.
Local Open Scope Z_scope.
Local Open Scope list_scope.

(** ** JavaScript values *)

Module Js.

(** The values that travel through the handlers. Numbers are integral
    here (status codes, configuration, JSON integers). *)
Inductive value : Type :=
| VUndefined
| VNull
| VBool (b : bool)
| VNum (n : Z)
| VStr (s : string)
| VObj (fields : list (string * value)).

(** [ToBoolean]: the test made by [!x], [x || y] and [if (x)]. *)
Definition truthy (v : value) : bool :=
  match v with
  | VUndefined | VNull => false
  | VBool b => b
  | VNum n => negb (n =? 0)
  | VStr s => negb (String.eqb s "")
  | VObj _ => true
  end.

(** [a || b] *)
Definition or_else (a b : value) : value := if truthy a then a else b.

(** [v === s] for a string [s] (and so [v !== s] is its negation):
    no conversion, a non-string is never equal to a string. *)
Definition strict_eq_string (v : value) (s : string) : bool :=
  match v with
  | VStr t => String.eqb t s
  | _ => false
  end.

(** Template-literal conversion [`${v}`] of an environment variable:
    an unset variable reads as [undefined]. *)
Definition template_env (v : option string) : string :=
  match v with
  | Some s => s
  | None => "undefined"
  end.

(** [String.prototype.toLowerCase] on one code unit. *)
Definition lower_ascii (c : ascii) : ascii :=
  let n := N_of_ascii c in
  if ((65 <=? n) && (n <=? 90))%N then ascii_of_N (n + 32) else c.

Fixpoint toLowerCase (s : string) : string :=
  match s with
  | EmptyString => EmptyString
  | String c r => String (lower_ascii c) (toLowerCase r)
  end.

(** [s.split(sep)] for a one-character separator. *)
Fixpoint split (sep : ascii) (s : string) : list string :=
  match s with
  | EmptyString => [EmptyString]
  | String c r =>
      if Ascii.eqb c sep then EmptyString :: split sep r
      else match split sep r with
           | [] => [String c EmptyString]
           | p :: ps => String c p :: ps
           end
  end.

(** Thrown values: an [Error] with the properties the file reads or
    sets ([name], [message], [code], [originalError]). *)
Inductive error : Type :=
| MkError (name : string) (message : value) (code : value)
          (originalError : option error).

Definition err_name (e : error) : string :=
  match e with MkError n _ _ _ => n end.
Definition err_message (e : error) : value :=
  match e with MkError _ m _ _ => m end.
Definition err_code (e : error) : value :=
  match e with MkError _ _ c _ => c end.

(** [TypeError] raised by a property read or method call on
    [undefined]/[null] or by calling something that is no function. *)
Definition TypeError (msg : string) : error :=
  MkError "TypeError" (VStr msg) VUndefined None.

(** [v.toLowerCase()] on an arbitrary value. *)
Definition call_toLowerCase (v : value) : error + string :=
  match v with
  | VStr s => inr (toLowerCase s)
  | VUndefined | VNull =>
      inl (TypeError "Cannot read properties of undefined (reading 'toLowerCase')")
  | _ => inl (TypeError "address.toLowerCase is not a function")
  end.

(** Property read [o.k] on an object literal; absent is [undefined]. *)
Fixpoint get_field (k : string) (fs : list (string * value)) : value :=
  match fs with
  | [] => VUndefined
  | (k', v) :: r => if String.eqb k k' then v else get_field k r
  end.

Definition member (v : value) (k : string) : value :=
  match v with
  | VObj fs => get_field k fs
  | _ => VUndefined
  end.

End Js.

(** ** SHA-1, as [crypto.createHash('sha1')] computes it *)

Module Sha1.

Definition mask32 : Z := 4294967295.
Definition add32 (a b : Z) : Z := Z.land (a + b) mask32.
Definition rotl (n a : Z) : Z :=
  Z.land (Z.lor (Z.shiftl a n) (Z.shiftr a (32 - n))) mask32.
Definition not32 (a : Z) : Z := Z.lxor a mask32.

Definition bytes_of_string (s : string) : list Z :=
  map (fun c => Z.of_N (N_of_ascii c)) (list_ascii_of_string s).

(** Big-endian bytes of [v], [n] of them. *)
Fixpoint be_bytes (n : nat) (v : Z) : list Z :=
  match n with
  | O => []
  | S k => Z.land (Z.shiftr v (8 * Z.of_nat k)) 255 :: be_bytes k v
  end.

Definition pad (msg : list Z) : list Z :=
  let len := Z.of_nat (length msg) in
  let zeros := Z.to_nat ((55 - len) mod 64) in
  msg ++ [128] ++ repeat 0 zeros ++ be_bytes 8 (8 * len).

Fixpoint words (fuel : nat) (bs : list Z) : list Z :=
  match fuel, bs with
  | S k, a :: b :: c :: d :: r =>
      (Z.shiftl a 24 + Z.shiftl b 16 + Z.shiftl c 8 + d) :: words k r
  | _, _ => []
  end.

Definition nthw (w : list Z) (i : nat) : Z := nth i w 0.

Fixpoint schedule (n : nat) (w : list Z) : list Z :=
  match n with
  | O => w
  | S k =>
      let i := length w in
      let x := Z.lxor (Z.lxor (nthw w (i - 3)) (nthw w (i - 8)))
                      (Z.lxor (nthw w (i - 14)) (nthw w (i - 16))) in
      schedule k (w ++ [rotl 1 x])
  end.

Definition hstate : Type := Z * Z * Z * Z * Z.

Definition round (i : nat) (wi : Z) (s : hstate) : hstate :=
  let '(a, b, c, d, e) := s in
  let '(f, k) :=
    if (i <? 20)%nat then
      (Z.lor (Z.land b c) (Z.land (not32 b) d), 1518500249)
    else if (i <? 40)%nat then
      (Z.lxor (Z.lxor b c) d, 1859775393)
    else if (i <? 60)%nat then
      (Z.lor (Z.lor (Z.land b c) (Z.land b d)) (Z.land c d), 2400959708)
    else
      (Z.lxor (Z.lxor b c) d, 3395469782) in
  let t := add32 (add32 (add32 (add32 (rotl 5 a) f) e) k) wi in
  (t, a, rotl 30 b, c, d).

Fixpoint rounds (i : nat) (w : list Z) (s : hstate) : hstate :=
  match w with
  | [] => s
  | wi :: r => rounds (S i) r (round i wi s)
  end.

Definition compress (s : hstate) (block : list Z) : hstate :=
  let w := schedule 64 (words 16 block) in
  let '(a, b, c, d, e) := rounds 0 w s in
  let '(h0, h1, h2, h3, h4) := s in
  (add32 h0 a, add32 h1 b, add32 h2 c, add32 h3 d, add32 h4 e).

Fixpoint blocks (fuel : nat) (bs : list Z) (s : hstate) : hstate :=
  match fuel with
  | O => s
  | S k =>
      match bs with
      | [] => s
      | _ => blocks k (drop 64 bs) (compress s (take 64 bs))
      end
  end.

Definition init : hstate :=
  (1732584193, 4023233417, 2562383102, 271733878, 3285377520).

Definition digest (msg : list Z) : list Z :=
  let p := pad msg in
  let '(h0, h1, h2, h3, h4) := blocks (length p) p init in
  be_bytes 4 h0 ++ be_bytes 4 h1 ++ be_bytes 4 h2 ++ be_bytes 4 h3
    ++ be_bytes 4 h4.

Definition hex_digit (n : Z) : ascii :=
  ascii_of_N (Z.to_N (if n <? 10 then 48 + n else 87 + n)).

(** [digest('hex')]: two lowercase hex digits per byte. *)
Fixpoint hex (bs : list Z) : string :=
  match bs with
  | [] => EmptyString
  | b :: r => String (hex_digit (b / 16)) (String (hex_digit (b mod 16)) (hex r))
  end.

Definition sha1_hex (s : string) : string := hex (digest (bytes_of_string s)).

End Sha1.

(** ** Configuration, libraries and the outside world *)

(** [process.env], read by [dotenv] at start-up. *)
Record env : Type := {
  SECRET : option string;
  JWT_SECRET_KEY : option string;
  IPFS_HOST : option string;
  IPFS_PORT : option string
}.

(** [process.env.X || d]: an unset or empty variable takes the default. *)
Definition env_or (v : option string) (d : string) : string :=
  match v with
  | Some s => if String.eqb s "" then d else s
  | None => d
  end.

Definition IPFS_URL (E : env) : string :=
  "http://" +:+ env_or (IPFS_HOST E) "127.0.0.1" +:+ ":"
            +:+ env_or (IPFS_PORT E) "5001" +:+ "/".

(** The npm packages the file calls, as functions. A result [inl e] is a
    thrown exception (or the [err] handed to a callback), [inr v] a
    normal return. [jwt_sign payload secret expiresIn now] and
    [jwt_verify token secret now] read the clock explicitly. The last two
    are of the runtime: [string_to_int32 s] is [s | 0], the integer a
    string converts to, and [Buffer_toString bytes] is the text a chunk
    of bytes decodes to on its own. *)
Record libs : Type := {
  ethers_isAddress : Js.value -> bool;
  ethers_verifyMessage : Js.value -> Js.value -> Js.error + string;
  jwt_sign : Js.value -> option string -> Z -> Z -> Js.error + string;
  jwt_verify : string -> option string -> Z -> Js.error + Js.value;
  JSON_parse : string -> Js.error + Js.value;
  string_to_int32 : string -> Z;
  Buffer_toString : string -> string
}.

(** What the socket of one [https.request] delivers, in order. The
    chunk of a ['data'] event is a [Buffer]: its bytes, as a string of
    8-bit units. *)
Inductive net_event : Type :=
| NetError (e : Js.error)
| NetResponse
| NetData (chunk : string)
| NetEnd.

(** What the outside does while one request is served: the clock, the
    construction of the chain client, the two contract reads and the
    indexing API's socket. *)
Record world : Type := {
  now : Z;
  new_contract : option Js.error;
  isGranted : Js.value -> Js.error + bool;
  isAdmin : Js.value -> Js.error + bool;
  graph_socket : list net_event
}.

Record request : Type := {
  authorization : option string;
  body : gmap string Js.value
}.

(** ** The log of observable steps *)

Inductive event : Type :=
| EvVerifyMessage (nonce signedMessage : Js.value)
| EvGenerateNonce (address : Js.value)
| EvJwtSign (payload : Js.value)
| EvJwtVerify (token : string)
| EvNewContract
| EvIsGranted (address : Js.value) (result : Js.error + bool)
| EvIsAdmin (address : Js.value) (result : Js.error + bool)
| EvGraphQuery (query : string)
| EvSend (status body : Js.value)
| EvSendStatus (status : Z)
| EvExpress500 (e : Js.error)
| EvForward (target : string)
| EvNext (err : option Js.error)
| EvRejected (e : Js.error)
| EvUncaught (e : Js.error).

(** ** Handlers as state-and-exception computations *)

(** The part of [req] and [res] a handler can change, and the log. *)
Record state : Type := {
  st_body : gmap string Js.value;
  st_locals_address : Js.value;
  st_statusCode : Js.value;
  st_log : list event
}.

Definition M (A : Type) : Type := state -> (Js.error + A) * state.

Definition ret {A} (a : A) : M A := fun s => (inr a, s).

Definition throw {A} (e : Js.error) : M A := fun s => (inl e, s).

Definition bind {A B} (m : M A) (k : A -> M B) : M B :=
  fun s =>
    match m s with
    | (inr a, s') => k a s'
    | (inl e, s') => (inl e, s')
    end.

(** [try { m } catch (err) { h(err) }] *)
Definition try_catch {A} (m : M A) (h : Js.error -> M A) : M A :=
  fun s =>
    match m s with
    | (inr a, s') => (inr a, s')
    | (inl e, s') => h e s'
    end.

Notation "'let*' x ':=' m 'in' k" := (bind m (fun x => k))
  (at level 10, x name, m at level 100, k at level 200).
Notation "m ';;;' k" := (bind m (fun _ => k))
  (at level 100, k at level 200, right associativity).

(** A library result enters the computation: [inl] throws. *)
Definition lift {A} (r : Js.error + A) : M A :=
  match r with
  | inl e => throw e
  | inr a => ret a
  end.

Definition log (ev : event) : M unit :=
  fun s => (inr tt, {| st_body := st_body s;
                       st_locals_address := st_locals_address s;
                       st_statusCode := st_statusCode s;
                       st_log := st_log s ++ [ev] |}).

(** [req.body.k] *)
Definition req_body (k : string) : M Js.value :=
  fun s => (inr (default Js.VUndefined (st_body s !! k)), s).

(** [req.body.k = v] *)
Definition set_req_body (k : string) (v : Js.value) : M unit :=
  fun s => (inr tt, {| st_body := <[k := v]> (st_body s);
                       st_locals_address := st_locals_address s;
                       st_statusCode := st_statusCode s;
                       st_log := st_log s |}).

Definition locals_address : M Js.value :=
  fun s => (inr (st_locals_address s), s).

Definition set_locals_address (v : Js.value) : M unit :=
  fun s => (inr tt, {| st_body := st_body s;
                       st_locals_address := v;
                       st_statusCode := st_statusCode s;
                       st_log := st_log s |}).

(** [res.status(code)] only stores the code. *)
Definition res_status (code : Js.value) : M unit :=
  fun s => (inr tt, {| st_body := st_body s;
                       st_locals_address := st_locals_address s;
                       st_statusCode := code;
                       st_log := st_log s |}).

(** [n | 0]: the 32-bit integer of an integral number. *)
Definition int32 (n : Z) : Z :=
  (n + 2147483648) mod 4294967296 - 2147483648.

(** [statusCode |= 0], as [writeHead] does on the stored status. *)
Definition status_int (L : libs) (v : Js.value) : Z :=
  match v with
  | Js.VNum n => int32 n
  | Js.VStr s => string_to_int32 L s
  | Js.VBool true => 1
  | _ => 0
  end.

(** [writeHead] accepts the integers from 100 to 999. *)
Definition valid_status (n : Z) : bool := (100 <=? n) && (n <=? 999).

(** The [RangeError] of [writeHead]; its message also spells out the
    offending value. *)
Definition invalid_status_code : Js.error :=
  Js.MkError "RangeError" (Js.VStr "Invalid status code")
             (Js.VStr "ERR_HTTP_INVALID_STATUS_CODE") None.

(** [res.send(b)] of express 4. A body that is a number is taken as the
    status and answered with the standard text of that status. Any
    other body is answered with the stored status. In both cases
    [writeHead] throws when the status is no integer from 100 to 999,
    and nothing is answered. *)
Definition res_send (L : libs) (b : Js.value) : M unit :=
  match b with
  | Js.VNum n =>
      res_status (Js.VNum n) ;;;
      if valid_status (int32 n) then log (EvSendStatus (int32 n))
      else throw invalid_status_code
  | _ =>
      fun s =>
        if valid_status (status_int L (st_statusCode s))
        then log (EvSend (st_statusCode s) b) s
        else throw invalid_status_code s
  end.

Definition init_state (q : request) : state :=
  {| st_body := body q;
     st_locals_address := Js.VUndefined;
     st_statusCode := Js.VNum 200;
     st_log := [] |}.

(** ** Errors of the file *)

(** [new HttpError(message, code)]; the class does not set [name]. *)
Definition HttpError (message : string) (code : Z) : Js.error :=
  Js.MkError "Error" (Js.VStr message) (Js.VNum code) None.

Definition EthereumContractError (message : string) (orig : Js.error) : Js.error :=
  Js.MkError "EthereumContractError" (Js.VStr message) Js.VUndefined (Some orig).

(** ** The express router *)

(** [next()] is [next None], [next(err)] is [next (Some err)]. *)
Definition next_fn : Type := option Js.error -> M unit.
Definition handler : Type := next_fn -> M unit.

(** A route handler is a plain function or an [async] one. *)
Inductive layer : Type :=
| Plain (h : handler)
| Async (h : handler).

(** The last [app.use]: the only error-handling middleware. *)
Definition errorResponder (L : libs) (err : Js.error) : M unit :=
  let status := Js.or_else (Js.err_code err) (Js.VNum 500) in
  let message := Js.or_else (Js.err_message err) (Js.VStr "Something went wrong") in
  res_status status ;;;
  res_send L message.

(** What express does with an error once the file's own responder has
    thrown: its final handler answers 500 with its own error page. *)
Definition finalHandler (e : Js.error) : M unit := log (EvExpress500 e).

(** Running a route's stack. A handler receives [next] bound to what is
    left of the stack; every call of [next] is logged. [next(err)] skips
    what is left and enters the error responder; what the responder
    throws goes to the final handler of express. An exception thrown by
    a plain handler is caught by the router and passed to [next]; an
    [async] handler returns a promise, and when that promise rejects
    nothing in this file handles the rejection. A stack that runs out
    without an answer leaves the request to the router's default. *)
Fixpoint dispatch (L : libs) (stack : list layer) (err : option Js.error)
    : M unit :=
  match err with
  | Some e => try_catch (errorResponder L e) finalHandler
  | None =>
      match stack with
      | [] => ret tt
      | Plain h :: rest =>
          try_catch
            (h (fun err' => log (EvNext err') ;;; dispatch L rest err'))
            (fun e => log (EvNext (Some e)) ;;; dispatch L rest (Some e))
      | Async h :: rest =>
          try_catch
            (h (fun err' => log (EvNext err') ;;; dispatch L rest err'))
            (fun e => log (EvRejected e))
      end
  end.

(** ** The handlers of [server.js] *)

Section Handlers.

Variable E : env.
Variable L : libs.
Variable W : world.

(** *** Nonce generation and [/signup] *)

(** The digest of [generateNonce] for a string argument. *)
Definition nonce_digest (address : string) : string :=
  Sha1.sha1_hex (Js.toLowerCase address +:+ ":" +:+ Js.template_env (SECRET E)).

(** [generateNonce(address)]: the method call [address.toLowerCase()]
    throws on a value that has no such method. *)
Definition generateNonce (address : Js.value) : Js.error + string :=
  match Js.call_toLowerCase address with
  | inl e => inl e
  | inr lower =>
      inr (Sha1.sha1_hex (lower +:+ ":" +:+ Js.template_env (SECRET E)))
  end.

(** A call of [generateNonce] made by a handler. *)
Definition call_generateNonce (address : Js.value) : M string :=
  log (EvGenerateNonce address) ;;;
  lift (generateNonce address).

Definition validateWalletAddress : handler := fun next =>
  let* a := req_body "walletAddress" in
  if negb (Js.truthy a) then
    next (Some (HttpError "Missing wallet address" 400))
  else if negb (ethers_isAddress L a) then
    next (Some (HttpError "Invalid wallet address" 400))
  else next None.

Definition transformWalletAddress : handler := fun next =>
  let* a := req_body "walletAddress" in
  let* lower := lift (Js.call_toLowerCase a) in
  set_req_body "walletAddress" (Js.VStr lower) ;;;
  next None.

Definition createNonce : handler := fun next =>
  try_catch
    (res_status (Js.VNum 200) ;;;
     let* a := req_body "walletAddress" in
     let* n := call_generateNonce a in
     res_send L (Js.VObj [("nonce", Js.VStr n)]))
    (fun err => next (Some err)).

(** *** [/verify] *)

Definition validateVerificationParameters : handler := fun next =>
  let* n := req_body "nonce" in
  if negb (Js.truthy n) then
    next (Some (HttpError "Nonce not provided" 400))
  else
    let* sm := req_body "signedMessage" in
    if negb (Js.truthy sm) then
      next (Some (HttpError "Signed message not provided" 400))
    else next None.

(** [getAddressFromMessage]: in the [catch] branch the function returns
    what [next(...)] returns, which is [undefined], to its caller. *)
Definition getAddressFromMessage (nonce signedMessage : Js.value)
    (next : next_fn) : M Js.value :=
  log (EvVerifyMessage nonce signedMessage) ;;;
  match ethers_verifyMessage L nonce signedMessage with
  | inr address => ret (Js.VStr address)
  | inl _ =>
      next (Some (HttpError "Failed to verify message" 400)) ;;;
      ret Js.VUndefined
  end.

Definition verifyMessage : handler := fun next =>
  let* nonce := req_body "nonce" in
  let* signedMessage := req_body "signedMessage" in
  let* address := getAddressFromMessage nonce signedMessage next in
  let* newNonce := call_generateNonce address in
  if negb (Js.strict_eq_string nonce newNonce) then
    next (Some (HttpError "Nonce mismatch" 400))
  else
    set_locals_address address ;;;
    next None.

(** ['1d'] in seconds. *)
Definition one_day : Z := 86400.

(** [createJwtToken]: [reject(err)] settles the promise, the
    [resolve(token)] after it has no effect. *)
Definition createJwtToken (walletAddress : Js.value) : M string :=
  let payload := Js.VObj [("walletAddress", walletAddress)] in
  log (EvJwtSign payload) ;;;
  lift (jwt_sign L payload (JWT_SECRET_KEY E) one_day (now W)).

(** The last handler of [/verify]. The callee [res.status(200).send] is
    evaluated before the awaited argument. *)
Definition issueToken : handler := fun next =>
  try_catch
    (res_status (Js.VNum 200) ;;;
     let* a := locals_address in
     let* token := createJwtToken a in
     res_send L (Js.VObj [("token", Js.VStr token)]))
    (fun err => next (Some err)).

(** *** Token validation *)

(** [authHeader?.split(' ')[1]]; [None] is [undefined]. *)
Definition extract_token (authHeader : option string) : option string :=
  match authHeader with
  | None => None
  | Some h => Js.split " " h !! 1%nat
  end.

Definition verifyToken (q : request) : M Js.value :=
  match extract_token (authorization q) with
  | None => throw (HttpError "Unauthorized" 401)
  | Some token =>
      log (EvJwtVerify token) ;;;
      match jwt_verify L token (JWT_SECRET_KEY E) (now W) with
      | inl _ => throw (HttpError "Forbidden" 403)
      | inr decoded => ret decoded
      end
  end.

(** *** The role gates *)

Definition getEthereumContract : M unit :=
  log EvNewContract ;;;
  match new_contract W with
  | Some err => throw (EthereumContractError "Failed to get Ethereum contract" err)
  | None => ret tt
  end.

(** [decoded.walletAddress] *)
Definition read_walletAddress (decoded : Js.value) : M Js.value :=
  match decoded with
  | Js.VUndefined | Js.VNull =>
      throw (Js.TypeError "Cannot read properties of undefined (reading 'walletAddress')")
  | _ => ret (Js.member decoded "walletAddress")
  end.

Definition contract_isGranted (address : Js.value) : M bool :=
  log (EvIsGranted address (isGranted W address)) ;;;
  lift (isGranted W address).

Definition contract_isAdmin (address : Js.value) : M bool :=
  log (EvIsAdmin address (isAdmin W address)) ;;;
  lift (isAdmin W address).

Definition authenticateToken (q : request) : handler := fun next =>
  try_catch
    (let* decoded := verifyToken q in
     getEthereumContract ;;;
     let* address := read_walletAddress decoded in
     let* granted := contract_isGranted address in
     if negb granted then throw (HttpError "Unauthorized" 401)
     else next None)
    (fun err => next (Some err)).

Definition authenticateAdmin (q : request) : handler := fun next =>
  try_catch
    (let* decoded := verifyToken q in
     getEthereumContract ;;;
     let* address := read_walletAddress decoded in
     let* admin := contract_isAdmin address in
     if negb admin then throw (HttpError "Unauthorized" 401)
     else next None)
    (fun err => next (Some err)).

Definition protected_content : string :=
  "Hello! You are viewing protected content.".

Definition sendProtected : handler := fun _ =>
  res_send L (Js.VStr protected_content).

(** [createProxyMiddleware({ target })]: the request leaves for the
    storage gateway. *)
Definition proxy (target : string) : handler := fun _ =>
  log (EvForward target).

(** *** The indexing-API adapter *)

(** The listeners the adapter has attached so far. [https.request]
    attaches the response callback; that callback, when it runs,
    attaches the ['data'] and ['end'] listeners of the response and the
    ['error'] listener of the request. *)
Record emitter : Type := {
  em_response_listeners : bool;
  em_error_listeners : nat;
  em_data : string
}.

Definition emitter0 : emitter :=
  {| em_response_listeners := false; em_error_listeners := 0; em_data := "" |}.

Definition graph_callback : Type := option Js.error -> Js.value -> M unit.

(** A listener runs on the event loop: what it throws is caught by
    nobody. [None] tells that the process went down. *)
Definition in_listener (m : M unit) : M (option unit) :=
  try_catch (m ;;; ret (Some tt))
            (fun e => log (EvUncaught e) ;;; ret None).

Fixpoint call_times (n : nat) (m : M unit) : M unit :=
  match n with
  | O => ret tt
  | S k => m ;;; call_times k m
  end.

(** Delivery of the socket's events to the attached listeners. An
    ['error'] event on an emitter that has no ['error'] listener is
    thrown; any other event without listener is dropped. *)
Fixpoint deliver (callback : graph_callback) (evs : list net_event)
    (em : emitter) : M unit :=
  match evs with
  | [] => ret tt
  | NetError e :: rest =>
      match em_error_listeners em with
      | O => log (EvUncaught e)
      | S _ as n =>
          let* r := in_listener (call_times n (callback (Some e) Js.VUndefined)) in
          match r with
          | Some _ => deliver callback rest em
          | None => ret tt
          end
      end
  | NetResponse :: rest =>
      deliver callback rest
        {| em_response_listeners := true;
           em_error_listeners := S (em_error_listeners em);
           em_data := "" |}
  | NetData chunk :: rest =>
      if em_response_listeners em then
        deliver callback rest
          {| em_response_listeners := true;
             em_error_listeners := em_error_listeners em;
             em_data := em_data em +:+ Buffer_toString L chunk |}
      else deliver callback rest em
  | NetEnd :: rest =>
      if em_response_listeners em then
        let* r := in_listener
                    (let* parsed := lift (JSON_parse L (em_data em)) in
                     callback None parsed) in
        match r with
        | Some _ => deliver callback rest em
        | None => ret tt
        end
      else deliver callback rest em
  end.

Definition queryTheGraphStudioAPI (query : string) (callback : graph_callback)
    : M unit :=
  log (EvGraphQuery query) ;;;
  deliver callback (graph_socket W) emitter0.

(** The query text of the two admin routes, which differ in the
    filter only. *)
Definition walletsQuery (filter : string) : string :=
  "
    {
      wallets(where: { " +:+ filter +:+ ": true }) {
        id
      }
    }
  ".

Definition walletsHandler (filter message : string) : handler := fun next =>
  queryTheGraphStudioAPI (walletsQuery filter)
    (fun err data =>
       match err with
       | Some _ => next (Some (HttpError message 500))
       | None => res_status (Js.VNum 200) ;;; res_send L data
       end).

Definition approvedWallets : handler :=
  walletsHandler "granted" "Error querying approved wallets with TheGraph Studio API".

Definition submittedWallets : handler :=
  walletsHandler "pending" "Error querying submitted wallets with TheGraph Studio API".

(** *** Routes *)

Inductive route : Type :=
| Signup
| Verify
| ApiCat
| Protected
| ApiAdd
| ApprovedWallets
| SubmittedWallets.

(** The handler stack each route registers, in registration order. *)
Definition stack_of (r : route) (q : request) : list layer :=
  match r with
  | Signup =>
      [Plain validateWalletAddress; Plain transformWalletAddress; Async createNonce]
  | Verify =>
      [Plain validateVerificationParameters; Async verifyMessage; Async issueToken]
  | ApiCat => [Plain (proxy (IPFS_URL E +:+ "/api/v0/cat"))]
  | Protected => [Async (authenticateToken q); Plain sendProtected]
  | ApiAdd => [Async (authenticateToken q); Plain (proxy (IPFS_URL E +:+ "/api/v0/add"))]
  | ApprovedWallets => [Async (authenticateAdmin q); Plain approvedWallets]
  | SubmittedWallets => [Async (authenticateAdmin q); Plain submittedWallets]
  end.

(** One request, from the parsed body to the final log. *)
Definition handle (r : route) (q : request) : list event :=
  st_log (snd (dispatch L (stack_of r q) None (init_state q))).

End Handlers.

(** The answers a log contains that the handlers sent with a body, in
    order; the status is the value the handler stored with
    [res.status], which [writeHead] has accepted. *)
Fixpoint responses (l : list event) : list (Js.value * Js.value) :=
  match l with
  | [] => []
  | EvSend st b :: r => (st, b) :: responses r
  | _ :: r => responses r
  end.

(** The payloads handed to the credential signer. *)
Fixpoint signed_payloads (l : list event) : list Js.value :=
  match l with
  | [] => []
  | EvJwtSign p :: r => p :: signed_payloads r
  | _ :: r => signed_payloads r
  end.

(** Has a handler of the request called [next()]? On a gated route the
    gate is the only handler that can, so this tells that the gate let
    the request through to the protected resource. *)
Definition is_next_ok (ev : event) : bool :=
  match ev with
  | EvNext None => true
  | _ => false
  end.

Definition admitted (l : list event) : bool := existsb is_next_ok l.

(** The membership queries a log contains, with their results. *)
Fixpoint granted_queries (l : list event) : list (Js.value * (Js.error + bool)) :=
  match l with
  | [] => []
  | EvIsGranted a r :: rest => (a, r) :: granted_queries rest
  | _ :: rest => granted_queries rest
  end.

(** The routes behind the granted gate and behind the admin gate. *)
Definition granted_gated (r : route) : bool :=
  match r with
  | Protected | ApiAdd => true
  | _ => false
  end.

Definition admin_gated (r : route) : bool :=
  match r with
  | ApprovedWallets | SubmittedWallets => true
  | _ => false
  end.

(** What the resource behind the granted gate does once it is reached. *)
Definition resource_events (E : env) (r : route) : list event :=
  match r with
  | Protected => [EvSend (Js.VNum 200) (Js.VStr protected_content)]
  | ApiAdd => [EvForward (IPFS_URL E +:+ "/api/v0/add")]
  | _ => []
  end.

(** The contract read a gated route makes. *)
Definition oracle_fails (W : world) (r : route) (a : Js.value) (e : Js.error) : Prop :=
  (granted_gated r = true /\ isGranted W a = inl e) \/
  (admin_gated r = true /\ isAdmin W a = inl e).

(** The log entry of that read. *)
Definition oracle_query_event (r : route) (a : Js.value) (res : Js.error + bool)
    : event :=
  if admin_gated r then EvIsAdmin a res else EvIsGranted a res.

(** The response body the adapter has collected from the chunks:
    [data += chunk] for each chunk in turn, from the empty string, each
    chunk being decoded on its own as it is appended. *)
Definition received (L : libs) (chunks : list string) : string :=
  fold_left (fun data chunk => data +:+ Buffer_toString L chunk) chunks "".

(** [req.body.k] of the request as it arrives. *)
Definition field (q : request) (k : string) : Js.value :=
  default Js.VUndefined (body q !! k).

(** No space occurs in the header value. *)
Fixpoint no_space (s : string) : bool :=
  match s with
  | EmptyString => true
  | String c r => negb (Ascii.eqb c " ") && no_space r
  end.

(** The contract of [jsonwebtoken] the file relies on: a token signed at
    [t0] with lifetime [d] verifies, under the same secret, to claims
    that carry the payload's properties at every instant before
    [t0 + d], and fails to verify from [t0 + d] on. *)
Definition jwt_contract (L : libs) : Prop :=
  forall payload secret d t0 tok,
    jwt_sign L payload secret d t0 = inr tok ->
    forall t,
      (t < t0 + d ->
       exists decoded,
         jwt_verify L tok secret t = inr decoded /\
         forall k, Js.member payload k <> Js.VUndefined ->
                   Js.member decoded k = Js.member payload k) /\
      (t0 + d <= t -> exists e, jwt_verify L tok secret t = inl e).

(** The process serves requests one after the other. Every module-level
    binding of the file is a [const] that no handler writes, so nothing
    but the configuration reaches from one request to the next. *)
Definition serve (E : env) (L : libs) (rs : list (world * route * request))
    : list (list event) :=
  map (fun '(W, r, q) => handle E L W r q) rs.

(** ** Test doubles for the libraries

    Small executable stand-ins for [ethers] and [jsonwebtoken], used to
    run the handlers on concrete requests. *)

Module Double.

Definition is_hex (c : ascii) : bool :=
  let n := N_of_ascii c in
  ((48 <=? n) && (n <=? 57) || (65 <=? n) && (n <=? 70)
   || (97 <=? n) && (n <=? 102))%N.

Fixpoint all_hex (s : string) : bool :=
  match s with
  | EmptyString => true
  | String c r => is_hex c && all_hex r
  end.

(** A [0x]-prefixed string of 40 hex digits (no checksum rule). *)
Definition isAddress (v : Js.value) : bool :=
  match v with
  | Js.VStr (String "0" (String "x" r)) =>
      (String.length r =? 40)%nat && all_hex r
  | _ => false
  end.

(** The address of the one key this double knows, in the mixed-case
    checksum form in which [ethers] returns recovered addresses. *)
Definition alice : string := "0x14791697260E4c9A71f18484C9f997B308e59325".

(** The signature [signed:<m>] is alice's signature of the message [m];
    any other blob is malformed. *)
Definition verifyMessage (message signature : Js.value) : Js.error + string :=
  match message, signature with
  | Js.VStr m, Js.VStr s =>
      if String.eqb s ("signed:" +:+ m) then inr alice
      else inl (Js.MkError "TypeError" (Js.VStr "invalid BytesLike value")
                           (Js.VStr "INVALID_ARGUMENT") None)
  | _, _ => inl (Js.MkError "TypeError" (Js.VStr "invalid BytesLike value")
                            (Js.VStr "INVALID_ARGUMENT") None)
  end.

(** Expiry instants are written in binary, least significant bit
    first, closed by a dot. *)
Fixpoint write_pos (p : positive) : string :=
  match p with
  | xH => "."
  | xO q => String "o" (write_pos q)
  | xI q => String "i" (write_pos q)
  end.

Fixpoint read_pos (s : string) : option (positive * string) :=
  match s with
  | String "." r => Some (xH, r)
  | String "o" r =>
      match read_pos r with
      | Some (p, r') => Some (xO p, r')
      | None => None
      end
  | String "i" r =>
      match read_pos r with
      | Some (p, r') => Some (xI p, r')
      | None => None
      end
  | _ => None
  end.

Definition jwt_error (name msg : string) : Js.error :=
  Js.MkError name (Js.VStr msg) Js.VUndefined None.

(** A token is the expiry instant followed by the wallet address. Only
    payloads of the shape [{ walletAddress: <string> }] are signed, and
    a secret must be configured. *)
Definition sign (payload : Js.value) (secret : option string)
    (expiresIn now : Z) : Js.error + string :=
  match secret, payload with
  | Some _, Js.VObj [(k, Js.VStr a)] =>
      if String.eqb k "walletAddress" && (0 <? now + expiresIn) then
        inr (write_pos (Z.to_pos (now + expiresIn)) +:+ a)
      else inl (jwt_error "Error" "unsupported payload")
  | None, _ => inl (jwt_error "Error" "secretOrPrivateKey must have a value")
  | _, _ => inl (jwt_error "Error" "unsupported payload")
  end.

Definition verify (token : string) (secret : option string) (now : Z)
    : Js.error + Js.value :=
  match secret with
  | None => inl (jwt_error "JsonWebTokenError" "secret or public key must be provided")
  | Some _ =>
      match read_pos token with
      | None => inl (jwt_error "JsonWebTokenError" "jwt malformed")
      | Some (exp, a) =>
          if now <? Z.pos exp then
            inr (Js.VObj [("walletAddress", Js.VStr a); ("exp", Js.VNum (Z.pos exp))])
          else inl (jwt_error "TokenExpiredError" "jwt expired")
      end
  end.

(** Only the literals [null], [true] and [{}] are JSON here. *)
Definition parse (s : string) : Js.error + Js.value :=
  if String.eqb s "null" then inr Js.VNull
  else if String.eqb s "true" then inr (Js.VBool true)
  else if String.eqb s "{}" then inr (Js.VObj [])
  else inl (Js.MkError "SyntaxError" (Js.VStr "Unexpected token in JSON")
                       Js.VUndefined None).

(** [s | 0] for the strings this double knows: a string without any
    decimal digit is no number (or is blank, or names an infinity), and
    [| 0] makes 0 of it; a string of digits only is its decimal value.
    Other strings are not needed and read as 0. *)
Definition is_digit (c : ascii) : bool :=
  let n := N_of_ascii c in ((48 <=? n) && (n <=? 57))%N.

Fixpoint has_digit (s : string) : bool :=
  match s with
  | EmptyString => false
  | String c r => is_digit c || has_digit r
  end.

Fixpoint all_digits (s : string) : bool :=
  match s with
  | EmptyString => true
  | String c r => is_digit c && all_digits r
  end.

Fixpoint decimal (acc : Z) (s : string) : Z :=
  match s with
  | EmptyString => acc
  | String c r => decimal (10 * acc + (Z.of_N (N_of_ascii c) - 48)) r
  end.

Definition to_int32 (s : string) : Z :=
  if has_digit s && all_digits s then int32 (decimal 0 s) else 0.

Definition lib : libs :=
  {| ethers_isAddress := isAddress;
     ethers_verifyMessage := verifyMessage;
     jwt_sign := sign;
     jwt_verify := verify;
     JSON_parse := parse;
     string_to_int32 := to_int32;
     Buffer_toString := fun bytes => bytes |}.

Definition config : env :=
  {| SECRET := Some "nonce-salt";
     JWT_SECRET_KEY := Some "signing-key";
     IPFS_HOST := None;
     IPFS_PORT := None |}.

(** A world at instant [t] in which the chain client is built, the
    allow-list answers [granted] for every wallet and nobody is admin. *)
Definition calm (t : Z) (granted : bool) : world :=
  {| now := t;
     new_contract := None;
     isGranted := fun _ => inr granted;
     isAdmin := fun _ => inr false;
     graph_socket := [] |}.

Definition post (fields : list (string * Js.value)) : request :=
  {| authorization := None; body := list_to_map fields |}.

Definition get (auth : option string) : request :=
  {| authorization := auth; body := ∅ |}.

(** The error [ethers] raises when a contract read reverts; its [code]
    is a string. *)
Definition call_exception : Js.error :=
  Js.MkError "Error" (Js.VStr "execution reverted") (Js.VStr "CALL_EXCEPTION") None.

(** A world at instant [t] in which every contract read fails. *)
Definition reverting (t : Z) : world :=
  {| now := t;
     new_contract := None;
     isGranted := fun _ => inl call_exception;
     isAdmin := fun _ => inl call_exception;
     graph_socket := [] |}.

(** A world at instant [t] in which the wallet is admin and the
    indexing API's socket delivers [socket]. *)
Definition admin_world (t : Z) (socket : list net_event) : world :=
  {| now := t;
     new_contract := None;
     isGranted := fun _ => inr true;
     isAdmin := fun _ => inr true;
     graph_socket := socket |}.

Definition nonce_alice : string := nonce_digest config alice.

(** Alice answers her challenge. *)
Definition verify_request : request :=
  post [("nonce", Js.VStr nonce_alice);
        ("signedMessage", Js.VStr ("signed:" +:+ nonce_alice))].

(** The credential issued to alice at instant 1000. *)
Definition token_alice : string := write_pos (Z.to_pos (1000 + one_day)) +:+ alice.

Definition bearer_alice : request := get (Some ("Bearer " +:+ token_alice)).

Definition econnrefused : Js.error :=
  Js.MkError "Error" (Js.VStr "connect ECONNREFUSED") (Js.VStr "ECONNREFUSED") None.

End Double.

(** ** Predicates of the further properties *)

(** A digit of lowercase hexadecimal. *)
Definition is_lower_hex (c : ascii) : bool :=
  let n := N_of_ascii c in
  ((48 <=? n) && (n <=? 57) || (97 <=? n) && (n <=? 102))%N.

Fixpoint all_lower_hex (s : string) : bool :=
  match s with
  | EmptyString => true
  | String c r => is_lower_hex c && all_lower_hex r
  end.

(** A socket on which no response begins and no error occurs. *)
Definition quiet_event (ev : net_event) : bool :=
  match ev with
  | NetData _ | NetEnd => true
  | NetError _ | NetResponse => false
  end.

Definition quiet (evs : list net_event) : bool := forallb quiet_event evs.

(** The chain reads of either kind a log contains. *)
Definition is_chain_event (ev : event) : bool :=
  match ev with
  | EvNewContract | EvIsGranted _ _ | EvIsAdmin _ _ => true
  | _ => false
  end.

Definition chain_events (l : list event) : list event :=
  List.filter is_chain_event l.

(** The routes behind either gate. *)
Definition gated (r : route) : bool := granted_gated r || admin_gated r.

(** The filter and the error message of an admin route. *)
Definition admin_filter (r : route) : string :=
  match r with
  | ApprovedWallets => "granted"
  | _ => "pending"
  end.

Definition admin_message (r : route) : string :=
  match r with
  | ApprovedWallets => "Error querying approved wallets with TheGraph Studio API"
  | _ => "Error querying submitted wallets with TheGraph Studio API"
  end.

(** A state with nothing in it, to run the responder on its own. *)
Definition blank_state : state :=
  {| st_body := ∅;
     st_locals_address := Js.VUndefined;
     st_statusCode := Js.VNum 200;
     st_log := [] |}.

(** What is logged from [next(err)] on: the responder's answer or, when
    the responder throws, the page of express. *)
Definition responder_events (L : libs) (e : Js.error) : list event :=
  st_log (snd (dispatch L [] (Some e) blank_state)).

(** [next] as the last handler of a stack receives it. *)
Definition last_next (L : libs) : next_fn :=
  fun err => log (EvNext err) ;;; dispatch L [] err.

(** The state of a request whose log so far is [l], with [res]
    untouched. *)
Definition state_after (q : request) (l : list event) : state :=
  {| st_body := body q;
     st_locals_address := Js.VUndefined;
     st_statusCode := Js.VNum 200;
     st_log := l |}.

(** The callback an admin route hands to the adapter. *)
Definition wallets_callback (L : libs) (r : route) : graph_callback :=
  fun err data =>
    match err with
    | Some _ => last_next L (Some (HttpError (admin_message r) 500))
    | None => res_status (Js.VNum 200) ;;; res_send L data
    end.

(** The log of an admin route up to the moment the gate lets the
    request through. *)
Definition admin_prefix (token : string) (a : Js.value) : list event :=
  [EvJwtVerify token; EvNewContract; EvIsAdmin a (inr true); EvNext None].

(** The status the client sees for each answer a log contains. *)
Fixpoint wire_statuses (L : libs) (l : list event) : list Z :=
  match l with
  | [] => []
  | EvSend st _ :: r => status_int L st :: wire_statuses L r
  | EvSendStatus n :: r => n :: wire_statuses L r
  | EvExpress500 _ :: r => 500 :: wire_statuses L r
  | _ :: r => wire_statuses L r
  end.

(** An error as the libraries raise them: the message is a text, and the
    [code] is absent (or falsy) or is no HTTP status. *)
Definition library_error (L : libs) (e : Js.error) : bool :=
  match Js.err_message e with
  | Js.VStr _ => true
  | _ => false
  end
  && (negb (Js.truthy (Js.err_code e))
      || negb (valid_status (status_int L (Js.err_code e)))).

(** * Properties *)

(** ** SHA-1 test vectors (FIPS 180) *)

Example sha1_abc :
  Sha1.sha1_hex "abc" = "a9993e364706816aba3e25717850c26c9cd0d89d".
Proof. vm_compute. reflexivity. Qed.

Example sha1_empty :
  Sha1.sha1_hex "" = "da39a3ee5e6b4b0d3255bfef95601890afd80709".
Proof. vm_compute. reflexivity. Qed.

Example sha1_two_blocks :
  Sha1.sha1_hex "abcdbcdecdefdefgefghfghighijhijkijkljklmklmnlmnomnopnopq"
  = "84983e441c3bd26ebaae4aa1f95129e5e54670f1".
Proof. vm_compute. reflexivity. Qed.

(** ** Strings *)

Lemma lower_ascii_idem (c : ascii) :
  Js.lower_ascii (Js.lower_ascii c) = Js.lower_ascii c.
Proof. destruct c as [[] [] [] [] [] [] [] []]; reflexivity. Qed.

Lemma toLowerCase_idem (s : string) :
  Js.toLowerCase (Js.toLowerCase s) = Js.toLowerCase s.
Proof.
  induction s as [|c r IH]; simpl; [reflexivity|].
  now rewrite lower_ascii_idem, IH.
Qed.

Lemma split_nonempty (sep : ascii) (s : string) : Js.split sep s <> [].
Proof.
  destruct s as [|c r]; simpl; [discriminate|].
  destruct (Ascii.eqb c sep); [discriminate|].
  destruct (Js.split sep r); discriminate.
Qed.

Lemma split_no_space (h : string) :
  no_space h = true -> Js.split " " h = [h].
Proof.
  induction h as [|c r IH]; simpl; [reflexivity|].
  intros [Hc Hr]%andb_prop. apply negb_true_iff in Hc. rewrite Hc.
  now rewrite (IH Hr).
Qed.

Lemma split_space (h : string) :
  no_space h = false -> exists a b rest, Js.split " " h = a :: b :: rest.
Proof.
  induction h as [|c r IH]; simpl; [discriminate|].
  destruct (Ascii.eqb c " ") eqn:Hc; simpl.
  - intros _. pose proof (split_nonempty " " r) as Hne.
    destruct (Js.split " " r) as [|b rest]; [congruence|]. eauto.
  - intros Hr. destruct (IH Hr) as (a & b & rest & ->). eauto.
Qed.

(** The token is [undefined] exactly when the header is absent or holds
    no space. *)
Lemma extract_token_None (h : option string) :
  extract_token h = None <-> h = None \/ exists v, h = Some v /\ no_space v = true.
Proof.
  destruct h as [v|]; simpl; [|intuition].
  split.
  - intros Hx. right. exists v. split; [reflexivity|].
    destruct (no_space v) eqn:Hs; [reflexivity|].
    destruct (split_space v Hs) as (a & b & rest & Heq).
    rewrite Heq in Hx. discriminate.
  - intros [Hx|(w & [= <-] & Hs)]; [discriminate|].
    now rewrite (split_no_space v Hs).
Qed.

(** ** Running handlers symbolically *)

Create HintDb js.

#[local] Hint Unfold try_catch bind ret throw lift log req_body set_req_body
  locals_address set_locals_address res_status res_send errorResponder
  finalHandler
  validateWalletAddress transformWalletAddress createNonce call_generateNonce
  validateVerificationParameters getAddressFromMessage verifyMessage
  createJwtToken issueToken verifyToken getEthereumContract read_walletAddress
  contract_isGranted contract_isAdmin authenticateToken authenticateAdmin
  sendProtected proxy : js.

(** Unfold the handlers, compute, and let [tac] rewrite with what is
    known about the request and the libraries, until nothing moves. *)
Ltac run_with tac :=
  unfold handle, stack_of, init_state;
  repeat first
    [ progress autounfold with js
    | progress cbn -[lookup insert Sha1.sha1_hex Js.toLowerCase String.append
                       Js.truthy Js.strict_eq_string]
    | progress tac ].

Ltac run := run_with idtac.

(** Settle a goal in which the responder runs on an error [e] that is
    not known: both sides branch alike on the message and on what
    [writeHead] makes of the status. *)
Ltac settle_responder e :=
  unfold responder_events; run;
  destruct (Js.or_else (Js.err_message e) (Js.VStr "Something went wrong"))
    as [| | |?n| |]; run;
  repeat match goal with
         | |- context [valid_status ?x] => destruct (valid_status x)
         end;
  run; rewrite <- ?app_assoc; reflexivity.

(** ** The router *)

(** Whatever the handlers do, the router itself never throws: an
    exception of a handler ends in the error responder or is recorded as
    a rejected promise. *)
Lemma responder_returns (L : libs) (e : Js.error) (s : state) :
  fst (try_catch (errorResponder L e) finalHandler s) = inr tt /\
  st_log (snd (try_catch (errorResponder L e) finalHandler s))
    = st_log s ++ responder_events L e.
Proof.
  unfold responder_events, dispatch, errorResponder, res_send, try_catch, bind,
    res_status, finalHandler, log, throw. simpl.
  destruct (Js.or_else (Js.err_message e) _) as [| | |n| |]; simpl;
    try (destruct (valid_status (status_int L _)); simpl; split; reflexivity).
  destruct (valid_status (int32 n)); simpl; split; reflexivity.
Qed.

Lemma dispatch_error_log (L : libs) (stack : list layer) (e : Js.error) (s : state) :
  st_log (snd (dispatch L stack (Some e) s)) = st_log s ++ responder_events L e.
Proof. destruct stack; apply responder_returns. Qed.

Lemma dispatch_returns (L : libs) (stack : list layer) (err : option Js.error)
    (s : state) :
  fst (dispatch L stack err s) = inr tt.
Proof.
  destruct err as [e|]; [destruct stack; apply responder_returns|].
  destruct stack as [|[h|h] rest]; simpl; [reflexivity| |];
    unfold try_catch;
    match goal with |- context [h ?k s] => destruct (h k s) as [[e|[]] s'] end;
    try reflexivity; destruct rest; apply responder_returns.
Qed.

(** From [next(err)] on, nothing is admitted, asked of the oracle or
    signed. *)
Lemma responder_events_inert (L : libs) (e : Js.error) :
  existsb is_next_ok (responder_events L e) = false /\
  granted_queries (responder_events L e) = [] /\
  signed_payloads (responder_events L e) = [].
Proof.
  unfold responder_events. run.
  destruct (Js.or_else (Js.err_message e) (Js.VStr "Something went wrong"))
    as [| | |n| |]; run;
    repeat match goal with
           | |- context [valid_status ?x] => destruct (valid_status x)
           end;
    repeat split; reflexivity.
Qed.

(** ** Nonce generation and [/signup] *)

Lemma generateNonce_string (E : env) (A : string) :
  generateNonce E (Js.VStr A) = inr (nonce_digest E A).
Proof. reflexivity. Qed.

Lemma nonce_digest_lower (E : env) (A : string) :
  nonce_digest E (Js.toLowerCase A) = nonce_digest E A.
Proof. unfold nonce_digest. now rewrite toLowerCase_idem. Qed.

(** A request that passes [validateWalletAddress] is answered with the
    digest of its address, whatever the world does meanwhile. *)
Lemma signup_log (E : env) (L : libs) (W : world) (q : request) (A : string) :
  field q "walletAddress" = Js.VStr A ->
  Js.truthy (Js.VStr A) = true ->
  ethers_isAddress L (Js.VStr A) = true ->
  handle E L W Signup q =
    [EvNext None; EvNext None; EvGenerateNonce (Js.VStr (Js.toLowerCase A));
     EvSend (Js.VNum 200) (Js.VObj [("nonce", Js.VStr (nonce_digest E A))])].
Proof.
  intros Hf Ht Ha. unfold field in Hf.
  run_with ltac:(rewrite ?Hf, ?Ht, ?Ha, ?lookup_insert_eq).
  unfold nonce_digest. now rewrite toLowerCase_idem.
Qed.

(** C3. [generateNonce] does not see the case of its argument:
    [generateNonce(A)] equals [generateNonce(lowercase(A))], its value is
    the SHA-1 digest determined by the address and the secret alone, and
    in any sequence of served requests two [/signup] requests whose valid
    addresses agree up to case are answered 200 with the same nonce. *)
Theorem signup_nonce_case_insensitive (E : env) (L : libs) :
  (forall A : string,
     generateNonce E (Js.VStr A) = generateNonce E (Js.VStr (Js.toLowerCase A))) /\
  (forall (rs : list (world * route * request)) (i j : nat) Wi qi Wj qj A B,
     rs !! i = Some (Wi, Signup, qi) ->
     rs !! j = Some (Wj, Signup, qj) ->
     field qi "walletAddress" = Js.VStr A ->
     field qj "walletAddress" = Js.VStr B ->
     Js.truthy (Js.VStr A) = true -> ethers_isAddress L (Js.VStr A) = true ->
     Js.truthy (Js.VStr B) = true -> ethers_isAddress L (Js.VStr B) = true ->
     Js.toLowerCase A = Js.toLowerCase B ->
     exists li lj,
       serve E L rs !! i = Some li /\ serve E L rs !! j = Some lj /\
       responses li =
         [(Js.VNum 200, Js.VObj [("nonce", Js.VStr (nonce_digest E A))])] /\
       responses lj = responses li).
Proof.
  split.
  - intros A. now rewrite !generateNonce_string, nonce_digest_lower.
  - intros rs i j Wi qi Wj qj A B Hi Hj HA HB HtA HaA HtB HaB Hlow.
    exists (handle E L Wi Signup qi), (handle E L Wj Signup qj).
    unfold serve. rewrite !list_lookup_fmap, Hi, Hj. simpl.
    rewrite (signup_log E L Wi qi A HA HtA HaA).
    rewrite (signup_log E L Wj qj B HB HtB HaB).
    repeat split. simpl.
    now rewrite <- (nonce_digest_lower E B), <- Hlow, nonce_digest_lower.
Qed.

(** ** Token validation *)

Lemma verifyToken_missing (E : env) (L : libs) (W : world) (q : request) (s : state) :
  extract_token (authorization q) = None ->
  verifyToken E L W q s = (inl (HttpError "Unauthorized" 401), s).
Proof. intros H. unfold verifyToken. now rewrite H. Qed.

Lemma verifyToken_present (E : env) (L : libs) (W : world) (q : request) (s : state)
    (token : string) :
  extract_token (authorization q) = Some token ->
  fst (verifyToken E L W q s) =
    match jwt_verify L token (JWT_SECRET_KEY E) (now W) with
    | inl _ => inl (HttpError "Forbidden" 403)
    | inr decoded => inr decoded
    end.
Proof.
  intros H. unfold verifyToken. rewrite H. run.
  now destruct (jwt_verify L token (JWT_SECRET_KEY E) (now W)).
Qed.

(** C4. [verifyToken] fails with Unauthorized (401) exactly when no token
    can be extracted from the Authorization header. With a token
    extracted it fails with Forbidden (403) exactly when [jwt.verify]
    reports an error, and returns the decoded claims otherwise. Under the
    contract of the token library, a credential issued for a wallet with
    the one-day lifetime is rejected with Forbidden from one day after
    its issuance on, and before that yields claims that contain the
    wallet address. *)
Theorem verifyToken_outcomes (E : env) (L : libs) (W : world) (q : request)
    (s : state) :
  (fst (verifyToken E L W q s) = inl (HttpError "Unauthorized" 401)
   <-> extract_token (authorization q) = None) /\
  (forall token,
     extract_token (authorization q) = Some token ->
     (fst (verifyToken E L W q s) = inl (HttpError "Forbidden" 403)
      <-> exists e, jwt_verify L token (JWT_SECRET_KEY E) (now W) = inl e) /\
     (forall decoded,
        fst (verifyToken E L W q s) = inr decoded
        <-> jwt_verify L token (JWT_SECRET_KEY E) (now W) = inr decoded)) /\
  (jwt_contract L ->
   forall (t0 : Z) (R token : string),
     jwt_sign L (Js.VObj [("walletAddress", Js.VStr R)]) (JWT_SECRET_KEY E)
              one_day t0 = inr token ->
     extract_token (authorization q) = Some token ->
     (t0 + 86400 <= now W ->
      fst (verifyToken E L W q s) = inl (HttpError "Forbidden" 403)) /\
     (now W < t0 + 86400 ->
      exists decoded,
        fst (verifyToken E L W q s) = inr decoded /\
        Js.member decoded "walletAddress" = Js.VStr R)).
Proof.
  split; [|split].
  - split.
    + destruct (extract_token (authorization q)) as [token|] eqn:Hx; [|reflexivity].
      rewrite (verifyToken_present E L W q s token Hx).
      destruct (jwt_verify L token (JWT_SECRET_KEY E) (now W)); discriminate.
    + intros Hx. now rewrite verifyToken_missing.
  - intros token Hx. rewrite (verifyToken_present E L W q s token Hx).
    destruct (jwt_verify L token (JWT_SECRET_KEY E) (now W)) as [e|d]; split.
    + split; eauto.
    + intros decoded. split; discriminate.
    + split; [discriminate|]. intros [e He]. discriminate.
    + intros decoded. split; congruence.
  - intros Hc t0 R token Hsign Hx.
    rewrite (verifyToken_present E L W q s token Hx).
    destruct (Hc _ _ _ _ _ Hsign (now W)) as [Hlive Hdead].
    unfold one_day in *. split.
    + intros Hlate. destruct (Hdead Hlate) as [e ->]. reflexivity.
    + intros Hearly. destruct (Hlive Hearly) as (decoded & -> & Hk).
      exists decoded. split; [reflexivity|].
      rewrite Hk; [reflexivity|]. simpl. discriminate.
Qed.

(** C10. A header that is present but holds no space (the bare scheme
    [Bearer], say) has no second part: [verifyToken] throws Unauthorized
    (401) before [jwt.verify] is called, and every gated route answers
    401. *)
Theorem bare_scheme_unauthorized (E : env) (L : libs) (W : world) (q : request)
    (h : string) (s : state) :
  authorization q = Some h ->
  no_space h = true ->
  verifyToken E L W q s = (inl (HttpError "Unauthorized" 401), s) /\
  forall r, In r [Protected; ApiAdd; ApprovedWallets; SubmittedWallets] ->
    handle E L W r q =
      [EvNext (Some (HttpError "Unauthorized" 401));
       EvSend (Js.VNum 401) (Js.VStr "Unauthorized")].
Proof.
  intros Hh Hs.
  assert (Hx : extract_token (authorization q) = None).
  { apply extract_token_None. right. eauto. }
  split; [now apply verifyToken_missing|].
  intros r Hr. simpl in Hr.
  destruct Hr as [<-|[<-|[<-|[<-|[]]]]]; run_with ltac:(rewrite ?Hx); reflexivity.
Qed.

(** ** [/verify] *)

Lemma strict_eq_string_true (v : Js.value) (s : string) :
  Js.strict_eq_string v s = true <-> v = Js.VStr s.
Proof.
  destruct v; simpl; try (split; [discriminate|congruence]).
  rewrite String.eqb_eq. split; congruence.
Qed.


Lemma verify_log_match (E : env) (L : libs) (W : world) (q : request) (R : string) :
  Js.truthy (field q "nonce") = true ->
  Js.truthy (field q "signedMessage") = true ->
  ethers_verifyMessage L (field q "nonce") (field q "signedMessage") = inr R ->
  Js.strict_eq_string (field q "nonce") (nonce_digest E R) = true ->
  let payload := Js.VObj [("walletAddress", Js.VStr R)] in
  handle E L W Verify q =
    [EvNext None;
     EvVerifyMessage (field q "nonce") (field q "signedMessage");
     EvGenerateNonce (Js.VStr R);
     EvNext None;
     EvJwtSign payload] ++
    match jwt_sign L payload (JWT_SECRET_KEY E) one_day (now W) with
    | inr token => [EvSend (Js.VNum 200) (Js.VObj [("token", Js.VStr token)])]
    | inl e => EvNext (Some e) :: responder_events L e
    end.
Proof.
  unfold field, nonce_digest. intros Hn Hs Hr Heq.
  run_with ltac:(rewrite ?Hn, ?Hs, ?Hr, ?Heq).
  destruct (jwt_sign L _ (JWT_SECRET_KEY E) one_day (now W)) as [e|token];
    [settle_responder e|reflexivity].
Qed.



(** C2, what the code does. When signature recovery throws, the helper
    answers through [next(err)] with 400 [Failed to verify message] and
    returns [undefined]; [verifyMessage] is not left: it goes on to call
    [generateNonce(undefined)], whose [toLowerCase] call throws a
    [TypeError] that rejects the handler's promise. No token is signed. *)
Theorem verify_recovery_error_log (E : env) (L : libs) (W : world) (q : request)
    (e : Js.error) :
  Js.truthy (field q "nonce") = true ->
  Js.truthy (field q "signedMessage") = true ->
  ethers_verifyMessage L (field q "nonce") (field q "signedMessage") = inl e ->
  handle E L W Verify q =
    [EvNext None;
     EvVerifyMessage (field q "nonce") (field q "signedMessage");
     EvNext (Some (HttpError "Failed to verify message" 400));
     EvSend (Js.VNum 400) (Js.VStr "Failed to verify message");
     EvGenerateNonce Js.VUndefined;
     EvRejected
       (Js.TypeError "Cannot read properties of undefined (reading 'toLowerCase')")].
Proof.
  unfold field. intros Hn Hs Hr.
  run_with ltac:(rewrite ?Hn, ?Hs, ?Hr). reflexivity.
Qed.

(** ** The role gates *)

(** The log of a request to a granted-gated route that carries a token
    which verifies to the claims [fs]. *)
Lemma granted_gate_log (E : env) (L : libs) (W : world) (r : route) (q : request)
    (token : string) (fs : list (string * Js.value)) :
  granted_gated r = true ->
  extract_token (authorization q) = Some token ->
  jwt_verify L token (JWT_SECRET_KEY E) (now W) = inr (Js.VObj fs) ->
  let a := Js.get_field "walletAddress" fs in
  handle E L W r q =
    [EvJwtVerify token; EvNewContract] ++
    match new_contract W with
    | Some err =>
        [EvNext (Some (EthereumContractError "Failed to get Ethereum contract" err));
         EvSend (Js.VNum 500) (Js.VStr "Failed to get Ethereum contract")]
    | None =>
        EvIsGranted a (isGranted W a) ::
        match isGranted W a with
        | inr true => EvNext None :: resource_events E r
        | inr false =>
            [EvNext (Some (HttpError "Unauthorized" 401));
             EvSend (Js.VNum 401) (Js.VStr "Unauthorized")]
        | inl e => EvNext (Some e) :: responder_events L e
        end
    end.
Proof.
  intros Hr Hx Hv a. subst a.
  destruct r; try discriminate Hr;
    run_with ltac:(rewrite ?Hx, ?Hv);
    (destruct (new_contract W); [reflexivity|]);
    run;
    (destruct (isGranted W (Js.get_field "walletAddress" fs)) as [e|[]];
     [settle_responder e|reflexivity|reflexivity]).
Qed.

(** C5. In any sequence of served requests, a request to [/protected] or
    [/api/v0/add] that carries a valid token for wallet [a] is admitted
    exactly when the log of that very request holds a query
    [isGranted(a)] that returned true, that is, exactly when the chain
    client was built and the oracle of that request's world answers
    true; the gate issues that query on each such request. *)
Theorem granted_gate_live_oracle (E : env) (L : libs)
    (rs : list (world * route * request)) (i : nat)
    (W : world) (r : route) (q : request)
    (token : string) (fs : list (string * Js.value)) :
  rs !! i = Some (W, r, q) ->
  granted_gated r = true ->
  extract_token (authorization q) = Some token ->
  jwt_verify L token (JWT_SECRET_KEY E) (now W) = inr (Js.VObj fs) ->
  let a := Js.get_field "walletAddress" fs in
  exists l,
    serve E L rs !! i = Some l /\
    (admitted l = true <-> In (a, inr true) (granted_queries l)) /\
    (admitted l = true <-> new_contract W = None /\ isGranted W a = inr true) /\
    (new_contract W = None -> granted_queries l = [(a, isGranted W a)]).
Proof.
  intros Hi Hr Hx Hv a.
  exists (handle E L W r q). split.
  { unfold serve. now rewrite list_lookup_fmap, Hi. }
  rewrite (granted_gate_log E L W r q token fs Hr Hx Hv). fold a.
  destruct (new_contract W) as [err|]; simpl.
  - repeat split; try discriminate; try tauto. intros [[=] _].
  - destruct (isGranted W a) as [e|[]] eqn:Hg; simpl.
    + destruct (responder_events_inert L e) as (Hadm & Hqs & _).
      unfold admitted. simpl. rewrite Hadm, Hqs.
      repeat split; try discriminate; try tauto.
      * intros [[=]|[]].
      * intros [_ [=]].
    + assert (Hq : granted_queries (resource_events E r) = []).
      { destruct r; try discriminate Hr; reflexivity. }
      rewrite Hq. repeat split; auto.
    + repeat split; try discriminate; try tauto.
      * intros [[=]|[]].
      * intros [_ [=]].
Qed.




(** ** The error responder *)

(** The responder answers with the status and the message it computed
    when [writeHead] accepts the status; otherwise its [res.send]
    throws and express answers with its own page. *)
Lemma responder_events_cases (L : libs) (e : Js.error) (m : Js.value) :
  Js.or_else (Js.err_message e) (Js.VStr "Something went wrong") = m ->
  (forall n, m <> Js.VNum n) ->
  responder_events L e =
    if valid_status (status_int L (Js.or_else (Js.err_code e) (Js.VNum 500)))
    then [EvSend (Js.or_else (Js.err_code e) (Js.VNum 500)) m]
    else [EvExpress500 invalid_status_code].
Proof.
  intros Hm Hnum. unfold responder_events. run. rewrite Hm.
  destruct m as [| | |n| |]; try (now destruct (Hnum n)); run;
    destruct (valid_status _); reflexivity.
Qed.

(** An error without a truthy [code] is answered 500 with its message,
    or with the generic text when the message is empty. *)
Lemma responder_events_unlabeled (L : libs) (e : Js.error) (m : string) :
  Js.truthy (Js.err_code e) = false ->
  Js.err_message e = Js.VStr m ->
  responder_events L e =
    [EvSend (Js.VNum 500)
            (Js.VStr (if String.eqb m "" then "Something went wrong" else m))].
Proof.
  intros Hc Hm.
  rewrite (responder_events_cases L e
             (Js.VStr (if String.eqb m "" then "Something went wrong" else m))).
  - unfold Js.or_else at 1 2. rewrite Hc. reflexivity.
  - rewrite Hm. unfold Js.or_else. simpl. now destruct (String.eqb m "").
  - intros n. discriminate.
Qed.

(** An error whose truthy [code] is no valid status makes the responder
    throw, whatever its message text. *)
Lemma responder_events_thrown (L : libs) (e : Js.error) (m : string) :
  Js.truthy (Js.err_code e) = true ->
  valid_status (status_int L (Js.err_code e)) = false ->
  Js.err_message e = Js.VStr m ->
  responder_events L e = [EvExpress500 invalid_status_code].
Proof.
  intros Hc Hv Hm.
  rewrite (responder_events_cases L e
             (Js.VStr (if String.eqb m "" then "Something went wrong" else m))).
  - unfold Js.or_else at 1. rewrite Hc, Hv. reflexivity.
  - rewrite Hm. unfold Js.or_else. simpl. now destruct (String.eqb m "").
  - intros n. discriminate.
Qed.

(** C9, what the code does. The responder takes whatever truthy [code]
    the error has as the status. For an error whose [code] is a string
    that is no status, as the errors of [ethers] and of the Node runtime
    are, [res.send] throws inside the responder: the error's message is
    never sent, and the answer the client gets is the 500 page of
    express, made from the [RangeError] and not from the error. Such an
    error reaches the responder from the gate when a contract read
    fails. *)
Theorem responder_throws_on_string_code (L : libs) (stack : list layer)
    (name c m : string) (o : option Js.error) (s : state) :
  c <> "" ->
  valid_status (string_to_int32 L c) = false ->
  st_log (snd (dispatch L stack (Some (Js.MkError name (Js.VStr m) (Js.VStr c) o)) s))
    = st_log s ++ [EvExpress500 invalid_status_code] /\
  responses
    (st_log (snd (dispatch L stack
                    (Some (Js.MkError name (Js.VStr m) (Js.VStr c) o)) blank_state)))
    = [].
Proof.
  intros Hc Hv.
  assert (Hev : responder_events L (Js.MkError name (Js.VStr m) (Js.VStr c) o)
                = [EvExpress500 invalid_status_code]).
  { apply (responder_events_thrown L _ m); [|exact Hv|reflexivity].
    simpl. now apply negb_true_iff, String.eqb_neq. }
  rewrite !dispatch_error_log, Hev. split; reflexivity.
Qed.

(** ** Oracle failures at the gates *)

(** When the contract read of a gate throws, the thrown error itself is
    passed to [next]. *)
Lemma gate_oracle_failure_events (E : env) (L : libs) (W : world) (r : route)
    (q : request) (token : string) (fs : list (string * Js.value)) (e : Js.error) :
  extract_token (authorization q) = Some token ->
  jwt_verify L token (JWT_SECRET_KEY E) (now W) = inr (Js.VObj fs) ->
  new_contract W = None ->
  oracle_fails W r (Js.get_field "walletAddress" fs) e ->
  handle E L W r q =
    [EvJwtVerify token; EvNewContract;
     oracle_query_event r (Js.get_field "walletAddress" fs) (inl e);
     EvNext (Some e)] ++ responder_events L e.
Proof.
  intros Hx Hv Hc [[Hr He]|[Hr He]];
    destruct r; try discriminate Hr;
    run_with ltac:(rewrite ?Hx, ?Hv, ?Hc, ?He); settle_responder e.
Qed.

(** C7. When the contract read of a gate throws an error of the kind the
    libraries raise (a text message, and a [code] that is absent or is
    no HTTP status), the request is not admitted and the failure is not
    turned into the 401 of a denial: the thrown error is passed to
    [next] and the client is answered with status 500, by the responder
    when the error has no [code] and by express's own page when
    [writeHead] refuses the [code]. *)
Theorem oracle_failure_answers_500 (E : env) (L : libs) (W : world) (r : route)
    (q : request) (token : string) (fs : list (string * Js.value)) (e : Js.error) :
  extract_token (authorization q) = Some token ->
  jwt_verify L token (JWT_SECRET_KEY E) (now W) = inr (Js.VObj fs) ->
  new_contract W = None ->
  oracle_fails W r (Js.get_field "walletAddress" fs) e ->
  library_error L e = true ->
  admitted (handle E L W r q) = false /\
  In (EvNext (Some e)) (handle E L W r q) /\
  wire_statuses L (handle E L W r q) = [500] /\
  responses (handle E L W r q) <> [(Js.VNum 401, Js.VStr "Unauthorized")].
Proof.
  intros Hx Hv Hc Hf Hlib.
  rewrite (gate_oracle_failure_events E L W r q token fs e Hx Hv Hc Hf).
  unfold library_error in Hlib. apply andb_prop in Hlib as [Hmsg Hcode].
  destruct (Js.err_message e) as [| | | |m|] eqn:Hm; try discriminate Hmsg.
  assert (Hev : responder_events L e
                = [EvSend (Js.VNum 500)
                     (Js.VStr (if String.eqb m "" then "Something went wrong" else m))]
                  \/ responder_events L e = [EvExpress500 invalid_status_code]).
  { destruct (Js.truthy (Js.err_code e)) eqn:Ht.
    - right. apply (responder_events_thrown L e m Ht); [|exact Hm].
      simpl in Hcode. now apply negb_true_iff in Hcode.
    - left. now apply responder_events_unlabeled. }
  unfold oracle_query_event.
  destruct Hev as [-> | ->]; destruct (admin_gated r);
    (split; [reflexivity|]); (split; [simpl; tauto|]);
    (split; [reflexivity|discriminate]).
Qed.

(** ** The indexing-API adapter *)

Lemma deliver_chunks (L : libs) (callback : graph_callback) (chunks : list string)
    (rest : list net_event) (em : emitter) (s : state) :
  em_response_listeners em = true ->
  deliver L callback (map NetData chunks ++ rest) em s =
  deliver L callback rest
    {| em_response_listeners := true;
       em_error_listeners := em_error_listeners em;
       em_data := fold_left (fun data chunk => data +:+ Buffer_toString L chunk)
                            chunks (em_data em) |} s.
Proof.
  revert em. induction chunks as [|c cs IH]; intros em Hl.
  - simpl. destruct em as [l n d]. simpl in *. now subst l.
  - simpl. rewrite Hl. now rewrite IH.
Qed.

(** When the body is JSON the callback gets [null] and the parsed value
    of everything received. *)
Lemma graph_adapter_success (L : libs) (W : world) (query : string)
    (callback : graph_callback) (chunks : list string) (v : Js.value) (s : state) :
  graph_socket W = NetResponse :: map NetData chunks ++ [NetEnd] ->
  JSON_parse L (received L chunks) = inr v ->
  queryTheGraphStudioAPI L W query callback s =
    (log (EvGraphQuery query) ;;;
     let* _ := in_listener (callback None v) in ret tt) s.
Proof.
  intros Hsock Hjson. unfold queryTheGraphStudioAPI, bind at 1 3. simpl.
  rewrite Hsock. simpl. rewrite deliver_chunks by reflexivity. simpl.
  fold (received L chunks). rewrite Hjson.
  unfold in_listener, try_catch, bind, lift, ret. simpl.
  destruct (callback None v _) as [[e|[]] s']; reflexivity.
Qed.

(** C8, what the code does. The ['error'] listener of the request is
    attached inside the response callback. A transport error that comes
    before any response therefore finds no listener: it is thrown on the
    event loop and the callback is never called. A body that is not JSON
    makes [JSON.parse] throw inside the ['end'] listener, again uncaught
    and without any call of the callback. *)
Theorem graph_adapter_failures_uncaught (L : libs) (W : world) (query : string)
    (callback : graph_callback) (s : state) :
  (forall e rest,
     graph_socket W = NetError e :: rest ->
     st_log (snd (queryTheGraphStudioAPI L W query callback s))
       = st_log s ++ [EvGraphQuery query; EvUncaught e]) /\
  (forall chunks rest e,
     graph_socket W = NetResponse :: map NetData chunks ++ NetEnd :: rest ->
     JSON_parse L (received L chunks) = inl e ->
     st_log (snd (queryTheGraphStudioAPI L W query callback s))
       = st_log s ++ [EvGraphQuery query; EvUncaught e]).
Proof.
  split.
  - intros e rest Hsock. unfold queryTheGraphStudioAPI, bind. simpl.
    rewrite Hsock. simpl. now rewrite <- app_assoc.
  - intros chunks rest e Hsock Hjson. unfold queryTheGraphStudioAPI, bind. simpl.
    rewrite Hsock. simpl. rewrite deliver_chunks by reflexivity. simpl.
    fold (received L chunks). rewrite Hjson. simpl. now rewrite <- app_assoc.
Qed.

(** ** The test doubles meet the contracts *)

Lemma read_write_pos (p : positive) (rest : string) :
  Double.read_pos (Double.write_pos p +:+ rest) = Some (p, rest).
Proof.
  induction p as [p IH|p IH|]; simpl; [now rewrite IH|now rewrite IH|reflexivity].
Qed.

Lemma double_jwt_contract : jwt_contract Double.lib.
Proof.
  intros payload secret d t0 tok Hs t. simpl in *. unfold Double.sign in Hs.
  destruct secret as [k|]; [|destruct payload; discriminate].
  destruct payload as [| | | | |fs]; try discriminate.
  destruct fs as [|[key v] rest]; [discriminate|].
  destruct v as [| | | |a|]; destruct rest; try discriminate.
  destruct (String.eqb key "walletAddress") eqn:Hk; [|discriminate].
  destruct (0 <? t0 + d) eqn:Hpos; [|discriminate].
  simpl in Hs. injection Hs as <-.
  apply String.eqb_eq in Hk. subst key. apply Z.ltb_lt in Hpos.
  unfold Double.verify. rewrite read_write_pos, Z2Pos.id by exact Hpos.
  split.
  - intros Hlt. apply Z.ltb_lt in Hlt. rewrite Hlt. eexists. split; [reflexivity|].
    intros f Hf. simpl in *.
    destruct (String.eqb f "walletAddress"); [reflexivity|contradiction].
  - intros Hge. apply Z.ltb_ge in Hge. rewrite Hge. eauto.
Qed.

(** ** The theorems at concrete requests *)


Lemma verify_recovery_error_log_witness :
  let q := Double.post [("nonce", Js.VStr "abc"); ("signedMessage", Js.VStr "0x00")] in
  responses (handle Double.config Double.lib (Double.calm 1000 true) Verify q)
    = [(Js.VNum 400, Js.VStr "Failed to verify message")] /\
  In (EvGenerateNonce Js.VUndefined)
     (handle Double.config Double.lib (Double.calm 1000 true) Verify q).
Proof.
  intros q.
  rewrite (verify_recovery_error_log Double.config Double.lib (Double.calm 1000 true) q
             (Js.MkError "TypeError" (Js.VStr "invalid BytesLike value")
                         (Js.VStr "INVALID_ARGUMENT") None)
             eq_refl eq_refl eq_refl).
  split; [reflexivity|]. simpl. tauto.
Defined.

Lemma signup_nonce_case_insensitive_witness :
  let lower := Js.toLowerCase Double.alice in
  let rs := [(Double.calm 1 true, Signup,
              Double.post [("walletAddress", Js.VStr Double.alice)]);
             (Double.calm 2 false, Signup,
              Double.post [("walletAddress", Js.VStr lower)])] in
  exists li lj,
    serve Double.config Double.lib rs !! 0%nat = Some li /\
    serve Double.config Double.lib rs !! 1%nat = Some lj /\
    responses li =
      [(Js.VNum 200,
        Js.VObj [("nonce", Js.VStr (nonce_digest Double.config Double.alice))])] /\
    responses lj = responses li.
Proof.
  intros lower rs.
  refine (proj2 (signup_nonce_case_insensitive Double.config Double.lib)
            rs 0%nat 1%nat _ _ _ _ Double.alice lower _ _ _ _ _ _ _ _ _);
    vm_compute; reflexivity.
Defined.

Lemma verifyToken_outcomes_witness :
  jwt_contract Double.lib /\
  fst (verifyToken Double.config Double.lib (Double.calm (1000 + 86400) true)
         Double.bearer_alice (init_state Double.bearer_alice))
    = inl (HttpError "Forbidden" 403) /\
  exists decoded,
    fst (verifyToken Double.config Double.lib (Double.calm (1000 + 86399) true)
           Double.bearer_alice (init_state Double.bearer_alice))
      = inr decoded /\
    Js.member decoded "walletAddress" = Js.VStr Double.alice.
Proof.
  split; [exact double_jwt_contract|]. split.
  - refine (proj1 (proj2 (proj2 (verifyToken_outcomes Double.config Double.lib
              (Double.calm (1000 + 86400) true) Double.bearer_alice
              (init_state Double.bearer_alice)))
              double_jwt_contract 1000 Double.alice Double.token_alice _ _) _);
      vm_compute; first [reflexivity | discriminate].
  - refine (proj2 (proj2 (proj2 (verifyToken_outcomes Double.config Double.lib
              (Double.calm (1000 + 86399) true) Double.bearer_alice
              (init_state Double.bearer_alice)))
              double_jwt_contract 1000 Double.alice Double.token_alice _ _) _);
      vm_compute; reflexivity.
Defined.

Lemma bare_scheme_unauthorized_witness :
  no_space "Bearer" = true /\
  handle Double.config Double.lib (Double.calm 1000 true) Protected
         (Double.get (Some "Bearer"))
    = [EvNext (Some (HttpError "Unauthorized" 401));
       EvSend (Js.VNum 401) (Js.VStr "Unauthorized")].
Proof.
  split; [reflexivity|].
  refine (proj2 (bare_scheme_unauthorized Double.config Double.lib
            (Double.calm 1000 true) (Double.get (Some "Bearer")) "Bearer"
            (init_state (Double.get (Some "Bearer"))) eq_refl eq_refl) Protected _).
  simpl. tauto.
Defined.

(** The same credential, presented twice: admitted while the allow-list
    says yes, refused on the next request when it says no. *)
Lemma granted_gate_live_oracle_witness :
  let rs := [(Double.calm 2000 true, Protected, Double.bearer_alice);
             (Double.calm 2001 false, Protected, Double.bearer_alice)] in
  (exists l, serve Double.config Double.lib rs !! 0%nat = Some l /\
             admitted l = true) /\
  (exists l, serve Double.config Double.lib rs !! 1%nat = Some l /\
             admitted l = false).
Proof.
  intros rs. split.
  - destruct (granted_gate_live_oracle Double.config Double.lib rs 0%nat
                (Double.calm 2000 true) Protected Double.bearer_alice
                Double.token_alice
                [("walletAddress", Js.VStr Double.alice); ("exp", Js.VNum 87400)]
                eq_refl eq_refl eq_refl eq_refl)
      as (l & Hl & _ & Hadm & _).
    exists l. split; [exact Hl|]. apply Hadm. split; reflexivity.
  - destruct (granted_gate_live_oracle Double.config Double.lib rs 1%nat
                (Double.calm 2001 false) Protected Double.bearer_alice
                Double.token_alice
                [("walletAddress", Js.VStr Double.alice); ("exp", Js.VNum 87400)]
                eq_refl eq_refl eq_refl eq_refl)
      as (l & Hl & _ & Hadm & _).
    exists l. split; [exact Hl|].
    destruct (admitted l); [|reflexivity].
    destruct (proj1 Hadm eq_refl) as [_ Hg]. discriminate Hg.
Defined.


Lemma oracle_failure_answers_500_witness :
  library_error Double.lib Double.call_exception = true /\
  admitted (handle Double.config Double.lib (Double.reverting 2000) Protected
              Double.bearer_alice) = false /\
  wire_statuses Double.lib
    (handle Double.config Double.lib (Double.reverting 2000) Protected
            Double.bearer_alice) = [500].
Proof.
  split; [reflexivity|].
  destruct (oracle_failure_answers_500 Double.config Double.lib
              (Double.reverting 2000) Protected Double.bearer_alice
              Double.token_alice
              [("walletAddress", Js.VStr Double.alice); ("exp", Js.VNum 87400)]
              Double.call_exception eq_refl eq_refl eq_refl
              (or_introl (conj eq_refl eq_refl)) eq_refl)
    as (Hadm & _ & Hst & _).
  split; [exact Hadm|exact Hst].
Defined.

Lemma responder_throws_on_string_code_witness :
  valid_status (string_to_int32 Double.lib "CALL_EXCEPTION") = false /\
  handle Double.config Double.lib (Double.reverting 2000) Protected
         Double.bearer_alice
    = [EvJwtVerify Double.token_alice; EvNewContract;
       EvIsGranted (Js.VStr Double.alice) (inl Double.call_exception);
       EvNext (Some Double.call_exception);
       EvExpress500 invalid_status_code].
Proof.
  split; [reflexivity|].
  pose proof (proj1 (responder_throws_on_string_code Double.lib []
                       "Error" "CALL_EXCEPTION" "execution reverted" None
                       (state_after Double.bearer_alice
                          [EvJwtVerify Double.token_alice; EvNewContract;
                           EvIsGranted (Js.VStr Double.alice)
                                       (inl Double.call_exception);
                           EvNext (Some Double.call_exception)])
                       ltac:(discriminate) eq_refl)) as Hlog.
  vm_compute in Hlog. vm_compute. exact Hlog.
Defined.

(** An admin asks for the approved wallets; the indexing API refuses the
    connection, or answers with a page that is not JSON. Either way the
    log ends in an uncaught exception and holds no response. *)
Lemma graph_adapter_failures_uncaught_witness :
  let refused := Double.admin_world 2000 [NetError Double.econnrefused] in
  let page := Double.admin_world 2000 [NetResponse; NetData "<ht"; NetData "ml>"; NetEnd] in
  (last (handle Double.config Double.lib refused ApprovedWallets Double.bearer_alice)
     = Some (EvUncaught Double.econnrefused) /\
   responses (handle Double.config Double.lib refused ApprovedWallets
                     Double.bearer_alice) = []) /\
  (JSON_parse Double.lib (received Double.lib ["<ht"; "ml>"])
     = inl (Js.MkError "SyntaxError" (Js.VStr "Unexpected token in JSON")
                       Js.VUndefined None) /\
   forall callback s,
     st_log (snd (queryTheGraphStudioAPI Double.lib page "q" callback s))
       = st_log s ++
         [EvGraphQuery "q";
          EvUncaught (Js.MkError "SyntaxError" (Js.VStr "Unexpected token in JSON")
                                 Js.VUndefined None)]).
Proof.
  intros refused page. split; [split; vm_compute; reflexivity|].
  split; [vm_compute; reflexivity|].
  intros callback s.
  exact (proj2 (graph_adapter_failures_uncaught Double.lib page "q" callback s)
           ["<ht"; "ml>"] [] _ eq_refl eq_refl).
Defined.


(** ** Further runs of the routes on the doubles *)

(** An error of the socket after the response has begun does find the
    listener: this is the one path on which an admin route answers 500. *)
Lemma graph_adapter_late_error (L : libs) (W : world) (query : string)
    (callback : graph_callback) (chunks : list string) (e : Js.error)
    (s : state) :
  graph_socket W = NetResponse :: map NetData chunks ++ [NetError e] ->
  queryTheGraphStudioAPI L W query callback s =
    (log (EvGraphQuery query) ;;;
     let* _ := in_listener (callback (Some e) Js.VUndefined ;;; ret tt) in ret tt) s.
Proof.
  intros Hsock. unfold queryTheGraphStudioAPI, bind at 1 3. simpl.
  rewrite Hsock. simpl. rewrite deliver_chunks by reflexivity. simpl.
  unfold in_listener, try_catch, bind, ret. simpl.
  destruct (callback (Some e) Js.VUndefined _) as [[e'|[]] s']; reflexivity.
Qed.

Example approved_wallets_late_error :
  responses (handle Double.config Double.lib
               (Double.admin_world 2000 [NetResponse; NetError Double.econnrefused])
               ApprovedWallets Double.bearer_alice)
  = [(Js.VNum 500,
      Js.VStr "Error querying approved wallets with TheGraph Studio API")].
Proof. vm_compute. reflexivity. Qed.

Example submitted_wallets_json :
  handle Double.config Double.lib
         (Double.admin_world 2000 [NetResponse; NetData "{"; NetData "}"; NetEnd])
         SubmittedWallets Double.bearer_alice
  = [EvJwtVerify Double.token_alice; EvNewContract;
     EvIsAdmin (Js.VStr Double.alice) (inr true); EvNext None;
     EvGraphQuery (walletsQuery "pending");
     EvSend (Js.VNum 200) (Js.VObj [])].
Proof. vm_compute. reflexivity. Qed.

Example signup_missing_address :
  responses (handle Double.config Double.lib (Double.calm 1 true) Signup (Double.post []))
  = [(Js.VNum 400, Js.VStr "Missing wallet address")].
Proof. vm_compute. reflexivity. Qed.

Example signup_invalid_address :
  responses (handle Double.config Double.lib (Double.calm 1 true) Signup
               (Double.post [("walletAddress", Js.VStr "0x123")]))
  = [(Js.VNum 400, Js.VStr "Invalid wallet address")].
Proof. vm_compute. reflexivity. Qed.

Example verify_missing_signature :
  responses (handle Double.config Double.lib (Double.calm 1 true) Verify
               (Double.post [("nonce", Js.VStr "abc")]))
  = [(Js.VNum 400, Js.VStr "Signed message not provided")].
Proof. vm_compute. reflexivity. Qed.

(** A stale nonce, derived under another secret, is a mismatch. *)
Example verify_stale_nonce :
  let old := {| SECRET := Some "old-salt"; JWT_SECRET_KEY := Some "signing-key";
                IPFS_HOST := None; IPFS_PORT := None |} in
  let stale := nonce_digest old Double.alice in
  responses (handle Double.config Double.lib (Double.calm 1 true) Verify
               (Double.post [("nonce", Js.VStr stale);
                             ("signedMessage", Js.VStr ("signed:" +:+ stale))]))
  = [(Js.VNum 400, Js.VStr "Nonce mismatch")].
Proof. vm_compute. reflexivity. Qed.

(** An empty second part is a token, and an invalid one. *)
Example protected_empty_token :
  handle Double.config Double.lib (Double.calm 1 true) Protected
         (Double.get (Some "Bearer "))
  = [EvJwtVerify ""; EvNext (Some (HttpError "Forbidden" 403));
     EvSend (Js.VNum 403) (Js.VStr "Forbidden")].
Proof. vm_compute. reflexivity. Qed.

Example protected_no_header :
  responses (handle Double.config Double.lib (Double.calm 1 true) Protected
               (Double.get None))
  = [(Js.VNum 401, Js.VStr "Unauthorized")].
Proof. vm_compute. reflexivity. Qed.

Example protected_denied :
  responses (handle Double.config Double.lib (Double.calm 2000 false) Protected
               Double.bearer_alice)
  = [(Js.VNum 401, Js.VStr "Unauthorized")].
Proof. vm_compute. reflexivity. Qed.

Example api_add_forwarded :
  handle Double.config Double.lib (Double.calm 2000 true) ApiAdd Double.bearer_alice
  = [EvJwtVerify Double.token_alice; EvNewContract;
     EvIsGranted (Js.VStr Double.alice) (inr true); EvNext None;
     EvForward "http://127.0.0.1:5001//api/v0/add"].
Proof. vm_compute. reflexivity. Qed.


(** * Further properties of the handlers *)

(** ** The shape of a nonce *)

Lemma be_bytes_length (n : nat) (v : Z) : length (Sha1.be_bytes n v) = n.
Proof. induction n as [|k IH]; simpl; [reflexivity|now rewrite IH]. Qed.

Lemma be_bytes_range (n : nat) (v : Z) :
  Forall (fun b => 0 <= b < 256) (Sha1.be_bytes n v).
Proof.
  induction n as [|k IH]; simpl; constructor; [|exact IH].
  change 255 with (Z.ones 8). rewrite Z.land_ones by lia.
  apply Z.mod_pos_bound. lia.
Qed.

Lemma digest_length (msg : list Z) : length (Sha1.digest msg) = 20%nat.
Proof.
  unfold Sha1.digest.
  destruct (Sha1.blocks _ _ _) as [[[[h0 h1] h2] h3] h4].
  now rewrite !length_app, !be_bytes_length.
Qed.

Lemma digest_range (msg : list Z) :
  Forall (fun b => 0 <= b < 256) (Sha1.digest msg).
Proof.
  unfold Sha1.digest.
  destruct (Sha1.blocks _ _ _) as [[[[h0 h1] h2] h3] h4].
  repeat apply Forall_app_2; apply be_bytes_range.
Qed.

Lemma hex_digit_lower (d : Z) :
  0 <= d < 16 -> is_lower_hex (Sha1.hex_digit d) = true.
Proof.
  intros Hd.
  assert (Hcases : d = 0 \/ d = 1 \/ d = 2 \/ d = 3 \/ d = 4 \/ d = 5 \/ d = 6
                   \/ d = 7 \/ d = 8 \/ d = 9 \/ d = 10 \/ d = 11 \/ d = 12
                   \/ d = 13 \/ d = 14 \/ d = 15) by lia.
  repeat (destruct Hcases as [->|Hcases]; [reflexivity|]). now subst d.
Qed.

Lemma hex_length (bs : list Z) :
  String.length (Sha1.hex bs) = (2 * length bs)%nat.
Proof. induction bs as [|b r IH]; simpl; [reflexivity|]. rewrite IH. lia. Qed.

Lemma hex_lower (bs : list Z) :
  Forall (fun b => 0 <= b < 256) bs -> all_lower_hex (Sha1.hex bs) = true.
Proof.
  induction 1 as [|b r Hb _ IH]; simpl; [reflexivity|].
  rewrite !hex_digit_lower, IH; [reflexivity| |].
  - apply Z.mod_pos_bound. lia.
  - split; [apply Z.div_pos; lia|apply Z.div_lt_upper_bound; lia].
Qed.

Lemma nonce_digest_shape (E : env) (A : string) :
  String.length (nonce_digest E A) = 40%nat /\
  all_lower_hex (nonce_digest E A) = true.
Proof.
  unfold nonce_digest, Sha1.sha1_hex. split.
  - now rewrite hex_length, digest_length.
  - apply hex_lower, digest_range.
Qed.

Lemma nonce_digest_truthy (E : env) (A : string) :
  Js.truthy (Js.VStr (nonce_digest E A)) = true.
Proof.
  destruct (nonce_digest_shape E A) as [Hlen _].
  simpl. destruct (nonce_digest E A); [discriminate Hlen|reflexivity].
Qed.

(** X1. Whatever the address and the secret are, [generateNonce] returns
    a string of exactly 40 lowercase hexadecimal digits; in particular a
    nonce is never empty, so it counts as present when it comes back in
    a [/verify] request. *)
Theorem nonce_is_40_hex_digits (E : env) (A : string) :
  exists n,
    generateNonce E (Js.VStr A) = inr n /\
    String.length n = 40%nat /\
    all_lower_hex n = true /\
    Js.truthy (Js.VStr n) = true.
Proof.
  exists (nonce_digest E A). split; [reflexivity|].
  destruct (nonce_digest_shape E A) as [Hlen Hhex].
  repeat split; [exact Hlen|exact Hhex|apply nonce_digest_truthy].
Qed.

(** ** Request validation *)

(** X2. A [/signup] request whose [walletAddress] is absent or falsy is
    answered 400 [Missing wallet address]; one whose address is present
    but not accepted by [ethers.isAddress] is answered 400
    [Invalid wallet address]. In both cases the first middleware ends
    the request: the body is not rewritten and no nonce is computed. *)
Theorem signup_rejects_bad_address (E : env) (L : libs) (W : world) (q : request) :
  (Js.truthy (field q "walletAddress") = false ->
   handle E L W Signup q =
     [EvNext (Some (HttpError "Missing wallet address" 400));
      EvSend (Js.VNum 400) (Js.VStr "Missing wallet address")]) /\
  (Js.truthy (field q "walletAddress") = true ->
   ethers_isAddress L (field q "walletAddress") = false ->
   handle E L W Signup q =
     [EvNext (Some (HttpError "Invalid wallet address" 400));
      EvSend (Js.VNum 400) (Js.VStr "Invalid wallet address")]).
Proof.
  unfold field. split.
  - intros Ht. run_with ltac:(rewrite ?Ht). reflexivity.
  - intros Ht Ha. run_with ltac:(rewrite ?Ht, ?Ha). reflexivity.
Qed.

(** X3. [/verify] checks the nonce before the signed message: a request
    without a truthy [nonce] is answered 400 [Nonce not provided]
    whatever else it carries, and one with a nonce but without a truthy
    [signedMessage] is answered 400 [Signed message not provided]. In
    both cases signature recovery is never attempted. *)
Theorem verify_rejects_missing_parameters (E : env) (L : libs) (W : world)
    (q : request) :
  (Js.truthy (field q "nonce") = false ->
   handle E L W Verify q =
     [EvNext (Some (HttpError "Nonce not provided" 400));
      EvSend (Js.VNum 400) (Js.VStr "Nonce not provided")]) /\
  (Js.truthy (field q "nonce") = true ->
   Js.truthy (field q "signedMessage") = false ->
   handle E L W Verify q =
     [EvNext (Some (HttpError "Signed message not provided" 400));
      EvSend (Js.VNum 400) (Js.VStr "Signed message not provided")]).
Proof.
  unfold field. split.
  - intros Hn. run_with ltac:(rewrite ?Hn). reflexivity.
  - intros Hn Hs. run_with ltac:(rewrite ?Hn, ?Hs). reflexivity.
Qed.

(** ** Challenge and response *)

(** X4. The nonce [/signup] hands out for a valid address [A] is accepted
    by [/verify]: when a request returns that nonce with a signature
    that recovers to an address [R] equal to [A] up to case, and the
    signer returns a token, [/verify] answers 200 with that token, and
    the credential was signed for [R]. *)
Theorem signup_then_verify (E : env) (L : libs) (W1 W2 : world)
    (q1 q2 : request) (A R n token : string) :
  field q1 "walletAddress" = Js.VStr A ->
  Js.truthy (Js.VStr A) = true ->
  ethers_isAddress L (Js.VStr A) = true ->
  responses (handle E L W1 Signup q1)
    = [(Js.VNum 200, Js.VObj [("nonce", Js.VStr n)])] ->
  field q2 "nonce" = Js.VStr n ->
  Js.truthy (field q2 "signedMessage") = true ->
  ethers_verifyMessage L (Js.VStr n) (field q2 "signedMessage") = inr R ->
  Js.toLowerCase R = Js.toLowerCase A ->
  jwt_sign L (Js.VObj [("walletAddress", Js.VStr R)]) (JWT_SECRET_KEY E)
           one_day (now W2) = inr token ->
  responses (handle E L W2 Verify q2)
    = [(Js.VNum 200, Js.VObj [("token", Js.VStr token)])] /\
  signed_payloads (handle E L W2 Verify q2)
    = [Js.VObj [("walletAddress", Js.VStr R)]].
Proof.
  intros Hf Ht Ha Hsignup Hn Hs Hr Hcase Hsign.
  rewrite (signup_log E L W1 q1 A Hf Ht Ha) in Hsignup. simpl in Hsignup.
  injection Hsignup as Hdigest.
  assert (Hmatch : Js.strict_eq_string (field q2 "nonce") (nonce_digest E R) = true).
  { rewrite Hn. simpl. apply String.eqb_eq. rewrite <- Hdigest.
    rewrite <- (nonce_digest_lower E A), <- Hcase. apply nonce_digest_lower. }
  assert (Hpresent : Js.truthy (field q2 "nonce") = true).
  { rewrite Hn, <- Hdigest. apply nonce_digest_truthy. }
  rewrite <- Hn in Hr.
  rewrite (verify_log_match E L W2 q2 R Hpresent Hs Hr Hmatch). cbv zeta.
  rewrite Hsign. split; reflexivity.
Qed.

(** X5. When the nonce matches but [jwt.sign] fails with an error that
    has a text message and no [code], as the errors of the signer are,
    no token is sent: the error is passed to [next] and the answer is
    500 with the error's message (the generic text when the message is
    empty). *)
Theorem verify_signer_failure (E : env) (L : libs) (W : world) (q : request)
    (R m : string) (e : Js.error) :
  Js.truthy (field q "nonce") = true ->
  Js.truthy (field q "signedMessage") = true ->
  ethers_verifyMessage L (field q "nonce") (field q "signedMessage") = inr R ->
  field q "nonce" = Js.VStr (nonce_digest E R) ->
  jwt_sign L (Js.VObj [("walletAddress", Js.VStr R)]) (JWT_SECRET_KEY E)
           one_day (now W) = inl e ->
  Js.truthy (Js.err_code e) = false ->
  Js.err_message e = Js.VStr m ->
  In (EvNext (Some e)) (handle E L W Verify q) /\
  responses (handle E L W Verify q)
    = [(Js.VNum 500,
        Js.VStr (if String.eqb m "" then "Something went wrong" else m))].
Proof.
  intros Hn Hs Hr Heq Hsign Hcode Hm. apply strict_eq_string_true in Heq.
  rewrite (verify_log_match E L W q R Hn Hs Hr Heq). cbv zeta. rewrite Hsign.
  rewrite (responder_events_unlabeled L e m Hcode Hm).
  split; [simpl; tauto|reflexivity].
Qed.

(** ** The Authorization header *)

Lemma split_first_part (s r : string) :
  no_space s = true ->
  Js.split " " (s +:+ String " " r) = s :: Js.split " " r.
Proof.
  induction s as [|c t IH]; simpl; [reflexivity|].
  intros [Hc Ht]%andb_prop. apply negb_true_iff in Hc. rewrite Hc.
  now rewrite (IH Ht).
Qed.

(** X6. From a header [<scheme> <token>] the token is what follows the
    first space, up to the next one: the scheme may be any word at all
    (it is not compared with [Bearer]), and anything after a second
    space is ignored. *)
Theorem extract_token_second_part (scheme token : string) :
  no_space scheme = true ->
  no_space token = true ->
  extract_token (Some (scheme +:+ " " +:+ token)) = Some token /\
  forall rest,
    extract_token (Some (scheme +:+ " " +:+ token +:+ " " +:+ rest)) = Some token.
Proof.
  intros Hs Ht. unfold extract_token. split.
  - change (scheme +:+ " " +:+ token) with (scheme +:+ String " " token).
    now rewrite (split_first_part scheme token Hs), (split_no_space token Ht).
  - intros rest.
    change (scheme +:+ " " +:+ token +:+ " " +:+ rest)
      with (scheme +:+ String " " (token +:+ String " " rest)).
    now rewrite (split_first_part scheme _ Hs), (split_first_part token rest Ht).
Qed.

(** ** The gates, case by case *)

(** X7. On every gated route a token that [jwt.verify] rejects is
    answered 403 [Forbidden]; the library's own error is not shown, and
    neither the chain client nor the oracle is touched. *)
Theorem rejected_token_forbidden (E : env) (L : libs) (W : world) (r : route)
    (q : request) (token : string) (e : Js.error) :
  gated r = true ->
  extract_token (authorization q) = Some token ->
  jwt_verify L token (JWT_SECRET_KEY E) (now W) = inl e ->
  handle E L W r q =
    [EvJwtVerify token;
     EvNext (Some (HttpError "Forbidden" 403));
     EvSend (Js.VNum 403) (Js.VStr "Forbidden")].
Proof.
  intros Hr Hx Hv.
  destruct r; try discriminate Hr; run_with ltac:(rewrite ?Hx, ?Hv); reflexivity.
Qed.

(** X8. When the chain client cannot be built, every gated route answers
    500 [Failed to get Ethereum contract], whatever the valid token
    holds; the error passed on wraps the original one, and no contract
    read is made. *)
Theorem contract_construction_failure (E : env) (L : libs) (W : world) (r : route)
    (q : request) (token : string) (decoded : Js.value) (err : Js.error) :
  gated r = true ->
  extract_token (authorization q) = Some token ->
  jwt_verify L token (JWT_SECRET_KEY E) (now W) = inr decoded ->
  new_contract W = Some err ->
  handle E L W r q =
    [EvJwtVerify token; EvNewContract;
     EvNext (Some (EthereumContractError "Failed to get Ethereum contract" err));
     EvSend (Js.VNum 500) (Js.VStr "Failed to get Ethereum contract")].
Proof.
  intros Hr Hx Hv Hc.
  destruct r; try discriminate Hr; run_with ltac:(rewrite ?Hx, ?Hv, ?Hc); reflexivity.
Qed.

(** X9. With a valid token and the chain client built, the granted gate
    answers by the oracle alone: if [isGranted] returns true,
    [/protected] answers 200 with the greeting and [/api/v0/add] hands
    the request to the storage gateway; if it returns false, both answer
    401 [Unauthorized] and the resource is not reached. The admin read
    is never made on these routes. *)
Theorem granted_gate_answers (E : env) (L : libs) (W : world) (q : request)
    (token : string) (fs : list (string * Js.value)) :
  extract_token (authorization q) = Some token ->
  jwt_verify L token (JWT_SECRET_KEY E) (now W) = inr (Js.VObj fs) ->
  new_contract W = None ->
  let a := Js.get_field "walletAddress" fs in
  (isGranted W a = inr true ->
   handle E L W Protected q =
     [EvJwtVerify token; EvNewContract; EvIsGranted a (inr true); EvNext None;
      EvSend (Js.VNum 200) (Js.VStr "Hello! You are viewing protected content.")] /\
   handle E L W ApiAdd q =
     [EvJwtVerify token; EvNewContract; EvIsGranted a (inr true); EvNext None;
      EvForward (IPFS_URL E +:+ "/api/v0/add")]) /\
  (isGranted W a = inr false ->
   forall r, granted_gated r = true ->
     handle E L W r q =
       [EvJwtVerify token; EvNewContract; EvIsGranted a (inr false);
        EvNext (Some (HttpError "Unauthorized" 401));
        EvSend (Js.VNum 401) (Js.VStr "Unauthorized")]).
Proof.
  intros Hx Hv Hc a. split.
  - intros Hg. split.
    + rewrite (granted_gate_log E L W Protected q token fs eq_refl Hx Hv), Hc.
      fold a. now rewrite Hg.
    + rewrite (granted_gate_log E L W ApiAdd q token fs eq_refl Hx Hv), Hc.
      fold a. now rewrite Hg.
  - intros Hg r Hr.
    rewrite (granted_gate_log E L W r q token fs Hr Hx Hv), Hc.
    fold a. now rewrite Hg.
Qed.

(** ** The admin routes *)

Lemma in_listener_eq (m : M unit) (s : state) :
  in_listener m s =
    match m s with
    | (inr _, s') => (inr (Some tt), s')
    | (inl e, s') => (inr None, snd (log (EvUncaught e) s'))
    end.
Proof.
  unfold in_listener, try_catch, bind, ret, log.
  destruct (m s) as [[e|u] s']; reflexivity.
Qed.

(** The adapter itself never throws into its caller. *)
Lemma deliver_returns (L : libs) (callback : graph_callback) (evs : list net_event)
    (em : emitter) (s : state) :
  fst (deliver L callback evs em s) = inr tt.
Proof.
  revert em s. induction evs as [|ev rest IH]; intros em s; [reflexivity|].
  destruct ev as [e| |chunk|]; cbn [deliver].
  - destruct (em_error_listeners em) as [|n]; [reflexivity|].
    unfold bind at 1. rewrite in_listener_eq.
    destruct (call_times (S n) _ s) as [[e'|u] s1]; [reflexivity|apply IH].
  - apply IH.
  - destruct (em_response_listeners em); apply IH.
  - destruct (em_response_listeners em); [|apply IH].
    unfold bind at 1. rewrite in_listener_eq.
    match goal with |- context [match ?m s with _ => _ end] =>
      destruct (m s) as [[e'|u] s1] end; [reflexivity|apply IH].
Qed.

(** Once the admin gate has let a request through, what follows is the
    adapter's run with the route's callback. *)
Lemma admin_pass_run (E : env) (L : libs) (W : world) (r : route) (q : request)
    (token : string) (fs : list (string * Js.value)) :
  admin_gated r = true ->
  extract_token (authorization q) = Some token ->
  jwt_verify L token (JWT_SECRET_KEY E) (now W) = inr (Js.VObj fs) ->
  new_contract W = None ->
  isAdmin W (Js.get_field "walletAddress" fs) = inr true ->
  handle E L W r q =
    st_log (snd (queryTheGraphStudioAPI L W (walletsQuery (admin_filter r))
                   (wallets_callback L r)
                   (state_after q
                      (admin_prefix token (Js.get_field "walletAddress" fs))))).
Proof.
  intros Hr Hx Hv Hc Ha.
  destruct r; try discriminate Hr;
    unfold queryTheGraphStudioAPI, wallets_callback, last_next, state_after,
           admin_prefix, admin_filter, admin_message, approvedWallets,
           submittedWallets, walletsHandler;
    run_with ltac:(rewrite ?Hx, ?Hv, ?Hc, ?Ha);
    match goal with
    | |- context [deliver ?L' ?cb ?evs ?em ?s] =>
        pose proof (deliver_returns L' cb evs em s) as Hret;
        destruct (deliver L' cb evs em s) as [[e|[]] s']
    end; first [discriminate Hret | reflexivity].
Qed.

Lemma call_times_log_grows (m : M unit) (n : nat) :
  (forall s, exists l, st_log (snd (m s)) = st_log s ++ l) ->
  forall s, exists l, st_log (snd (call_times n m s)) = st_log s ++ l.
Proof.
  intros Hm. induction n as [|k IH]; intros s; simpl.
  - exists []. now rewrite app_nil_r.
  - unfold bind. destruct (Hm s) as [l1 Hl1].
    destruct (m s) as [[e|u] s1]; simpl in *; [eauto|].
    destruct (IH s1) as [l2 Hl2]. exists (l1 ++ l2).
    now rewrite Hl2, Hl1, app_assoc.
Qed.

Lemma in_listener_log_grows (m : M unit) :
  (forall s, exists l, st_log (snd (m s)) = st_log s ++ l) ->
  forall s, exists l, st_log (snd (in_listener m s)) = st_log s ++ l.
Proof.
  intros Hm s. rewrite in_listener_eq. destruct (Hm s) as [l Hl].
  destruct (m s) as [[e|u] s1]; simpl in *; [|eauto].
  exists (l ++ [EvUncaught e]). now rewrite Hl, app_assoc.
Qed.

(** The adapter only ever appends to the log. *)
Lemma deliver_log_grows (L : libs) (callback : graph_callback) :
  (forall err data s, exists l,
     st_log (snd (callback err data s)) = st_log s ++ l) ->
  forall evs em s, exists l,
    st_log (snd (deliver L callback evs em s)) = st_log s ++ l.
Proof.
  intros Hcb evs. induction evs as [|ev rest IH]; intros em s.
  { exists []. simpl. now rewrite app_nil_r. }
  destruct ev as [e| |chunk|]; cbn [deliver].
  - destruct (em_error_listeners em) as [|n]; [exists [EvUncaught e]; reflexivity|].
    unfold bind at 1.
    destruct (in_listener_log_grows
                (call_times (S n) (callback (Some e) Js.VUndefined))
                (call_times_log_grows _ (S n) (Hcb (Some e) Js.VUndefined)) s)
      as [l1 Hl1].
    pose proof (in_listener_eq (call_times (S n) (callback (Some e) Js.VUndefined)) s)
      as Heq.
    destruct (in_listener _ s) as [[e'|[u|]] s1]; simpl in *; eauto.
    destruct (IH em s1) as [l2 Hl2]. exists (l1 ++ l2).
    now rewrite Hl2, Hl1, app_assoc.
  - apply IH.
  - destruct (em_response_listeners em); apply IH.
  - destruct (em_response_listeners em); [|apply IH].
    unfold bind at 1.
    match goal with |- context [in_listener ?m s] =>
      assert (Hm : forall s0, exists l, st_log (snd (m s0)) = st_log s0 ++ l);
      [|destruct (in_listener_log_grows m Hm s) as [l1 Hl1];
        destruct (in_listener m s) as [[e'|[u|]] s1]]
    end.
    + intros s0. unfold bind, lift, throw, ret.
      destruct (JSON_parse L (em_data em)) as [e|v]; simpl.
      * exists []. now rewrite app_nil_r.
      * apply Hcb.
    + simpl in *. eauto.
    + simpl in *. destruct (IH em s1) as [l2 Hl2]. exists (l1 ++ l2).
      now rewrite Hl2, Hl1, app_assoc.
    + simpl in *. eauto.
Qed.

Lemma res_send_log_grows (L : libs) (b : Js.value) (s : state) :
  exists l, st_log (snd (res_send L b s)) = st_log s ++ l.
Proof.
  destruct b as [| | |n| |];
    unfold res_send, bind, res_status, log, throw; simpl;
    destruct (valid_status _); simpl;
    first [ exists []; now rewrite app_nil_r | eexists; reflexivity ].
Qed.

Lemma wallets_callback_log_grows (L : libs) (r : route) (err : option Js.error)
    (data : Js.value) (s : state) :
  exists l, st_log (snd (wallets_callback L r err data s)) = st_log s ++ l.
Proof.
  destruct err as [e|]; unfold wallets_callback.
  - unfold last_next, bind, log. cbv beta iota.
    eexists. rewrite dispatch_error_log. simpl. rewrite <- app_assoc. reflexivity.
  - unfold bind, res_status. cbv beta iota.
    exact (res_send_log_grows L data
             {| st_body := st_body s;
                st_locals_address := st_locals_address s;
                st_statusCode := Js.VNum 200;
                st_log := st_log s |}).
Qed.

Lemma admitted_app (l1 l2 : list event) :
  admitted (l1 ++ l2) = admitted l1 || admitted l2.
Proof. apply existsb_app. Qed.

(** X10. The admin gate works like the granted gate, on [isAdmin]: with a
    valid token, a request to [/approved-wallets] or [/submitted-wallets]
    gets past the gate exactly when the chain client was built and
    [isAdmin] returned true for the token's wallet. When [isAdmin]
    returns false the answer is 401 [Unauthorized] and the indexing API
    is not queried. *)
Theorem admin_gate_live_oracle (E : env) (L : libs) (W : world) (r : route)
    (q : request) (token : string) (fs : list (string * Js.value)) :
  admin_gated r = true ->
  extract_token (authorization q) = Some token ->
  jwt_verify L token (JWT_SECRET_KEY E) (now W) = inr (Js.VObj fs) ->
  let a := Js.get_field "walletAddress" fs in
  (admitted (handle E L W r q) = true
   <-> new_contract W = None /\ isAdmin W a = inr true) /\
  (new_contract W = None -> isAdmin W a = inr false ->
   handle E L W r q =
     [EvJwtVerify token; EvNewContract; EvIsAdmin a (inr false);
      EvNext (Some (HttpError "Unauthorized" 401));
      EvSend (Js.VNum 401) (Js.VStr "Unauthorized")]).
Proof.
  intros Hr Hx Hv a. subst a. split.
  - destruct (new_contract W) as [err|] eqn:Hc.
    { split; [|intros [[=] _]].
      destruct r; try discriminate Hr;
        run_with ltac:(rewrite ?Hx, ?Hv, ?Hc); discriminate. }
    destruct (isAdmin W (Js.get_field "walletAddress" fs)) as [e|[]] eqn:Ha.
    + split; [|intros [_ [=]]].
      rewrite (gate_oracle_failure_events E L W r q token fs e Hx Hv Hc
                 (or_intror (conj Hr Ha))).
      unfold admitted, oracle_query_event.
      rewrite existsb_app, (proj1 (responder_events_inert L e)), Hr.
      discriminate.
    + split; [tauto|]. intros _.
      rewrite (admin_pass_run E L W r q token fs Hr Hx Hv Hc Ha).
      unfold queryTheGraphStudioAPI, bind. simpl.
      destruct (deliver_log_grows L (wallets_callback L r)
                  (wallets_callback_log_grows L r) (graph_socket W) emitter0
                  (snd (log (EvGraphQuery (walletsQuery (admin_filter r)))
                          (state_after q (admin_prefix token
                             (Js.get_field "walletAddress" fs))))))
        as [l Hl].
      simpl in Hl. rewrite Hl. reflexivity.
    + split; [|intros [_ [=]]].
      destruct r; try discriminate Hr;
        run_with ltac:(rewrite ?Hx, ?Hv, ?Hc, ?Ha); discriminate.
  - intros Hc Ha.
    destruct r; try discriminate Hr;
      run_with ltac:(rewrite ?Hx, ?Hv, ?Hc, ?Ha); reflexivity.
Qed.

(** X11. An admin route returns the indexing API's JSON: when the text
    collected from the chunks, each decoded on its own in order of
    arrival, parses to a value [v] that is not a number, the route
    answers 200 with [v], after exactly one query with the route's
    filter. (A body that is a bare number is not returned: [res.send]
    takes it for a status.) *)
Theorem admin_route_returns_json (E : env) (L : libs) (W : world) (r : route)
    (q : request) (token : string) (fs : list (string * Js.value))
    (chunks : list string) (v : Js.value) :
  admin_gated r = true ->
  extract_token (authorization q) = Some token ->
  jwt_verify L token (JWT_SECRET_KEY E) (now W) = inr (Js.VObj fs) ->
  new_contract W = None ->
  isAdmin W (Js.get_field "walletAddress" fs) = inr true ->
  graph_socket W = NetResponse :: map NetData chunks ++ [NetEnd] ->
  JSON_parse L (received L chunks) = inr v ->
  (forall n, v <> Js.VNum n) ->
  handle E L W r q =
    admin_prefix token (Js.get_field "walletAddress" fs) ++
    [EvGraphQuery (walletsQuery (admin_filter r)); EvSend (Js.VNum 200) v].
Proof.
  intros Hr Hx Hv Hc Ha Hsock Hjson Hnum.
  rewrite (admin_pass_run E L W r q token fs Hr Hx Hv Hc Ha).
  rewrite (graph_adapter_success L W _ _ chunks v _ Hsock Hjson).
  destruct v as [| | |n| |]; try reflexivity. now destruct (Hnum n).
Qed.

(** X12. When the socket fails after the response has begun, an admin
    route answers 500 with its own fixed message (the approved and the
    submitted route have different ones); the socket's error is not
    shown and the body received so far is never parsed. *)
Theorem admin_route_late_error (E : env) (L : libs) (W : world) (r : route)
    (q : request) (token : string) (fs : list (string * Js.value))
    (chunks : list string) (e : Js.error) :
  admin_gated r = true ->
  extract_token (authorization q) = Some token ->
  jwt_verify L token (JWT_SECRET_KEY E) (now W) = inr (Js.VObj fs) ->
  new_contract W = None ->
  isAdmin W (Js.get_field "walletAddress" fs) = inr true ->
  graph_socket W = NetResponse :: map NetData chunks ++ [NetError e] ->
  handle E L W r q =
    admin_prefix token (Js.get_field "walletAddress" fs) ++
    [EvGraphQuery (walletsQuery (admin_filter r));
     EvNext (Some (HttpError (admin_message r) 500));
     EvSend (Js.VNum 500) (Js.VStr (admin_message r))].
Proof.
  intros Hr Hx Hv Hc Ha Hsock.
  rewrite (admin_pass_run E L W r q token fs Hr Hx Hv Hc Ha).
  rewrite (graph_adapter_late_error L W _ _ chunks e _ Hsock).
  destruct r; try discriminate Hr; reflexivity.
Qed.

Lemma deliver_quiet (L : libs) (callback : graph_callback) (evs : list net_event)
    (s : state) :
  quiet evs = true -> deliver L callback evs emitter0 s = (inr tt, s).
Proof.
  induction evs as [|ev rest IH]; [reflexivity|].
  simpl. intros [Hev Hrest]%andb_prop.
  destruct ev; try discriminate Hev; simpl; now apply IH.
Qed.

(** X13. While no response begins and no error occurs, the adapter never
    calls back: an admin route that got past the gate has sent its query
    and gives no answer at all. No timeout ends the wait. *)
Theorem admin_route_waits (E : env) (L : libs) (W : world) (r : route)
    (q : request) (token : string) (fs : list (string * Js.value)) :
  admin_gated r = true ->
  extract_token (authorization q) = Some token ->
  jwt_verify L token (JWT_SECRET_KEY E) (now W) = inr (Js.VObj fs) ->
  new_contract W = None ->
  isAdmin W (Js.get_field "walletAddress" fs) = inr true ->
  quiet (graph_socket W) = true ->
  handle E L W r q =
    admin_prefix token (Js.get_field "walletAddress" fs) ++
    [EvGraphQuery (walletsQuery (admin_filter r))] /\
  responses (handle E L W r q) = [].
Proof.
  intros Hr Hx Hv Hc Ha Hq.
  rewrite (admin_pass_run E L W r q token fs Hr Hx Hv Hc Ha).
  unfold queryTheGraphStudioAPI, bind. simpl.
  rewrite (deliver_quiet L _ _ _ Hq). split; reflexivity.
Qed.

(** ** Two facts on strings *)

Lemma string_append_assoc (a b c : string) :
  (a +:+ b) +:+ c = a +:+ (b +:+ c).
Proof.
  induction a as [|x t IH]; [reflexivity|].
  change (String x ((t +:+ b) +:+ c) = String x (t +:+ (b +:+ c))).
  now rewrite IH.
Qed.

Lemma string_append_empty_r (a : string) : a +:+ "" = a.
Proof.
  induction a as [|x t IH]; [reflexivity|].
  change (String x (t +:+ "") = String x t). now rewrite IH.
Qed.

(** ** The error responder on the file's own errors *)




(** ** The public route *)

(** X16. [/api/v0/cat] is public: whatever the request carries, with or
    without an Authorization header, it is handed to the storage gateway
    without a token check and without a chain read. The target keeps the
    slash that ends the gateway URL, so its path begins with two
    slashes; an empty host or port variable counts as unset. *)
Theorem api_cat_is_public (E : env) (L : libs) (W : world) (q : request) :
  handle E L W ApiCat q =
    [EvForward ("http://" +:+ env_or (IPFS_HOST E) "127.0.0.1" +:+ ":"
                +:+ env_or (IPFS_PORT E) "5001" +:+ "//api/v0/cat")] /\
  env_or (Some "") "127.0.0.1" = env_or None "127.0.0.1".
Proof.
  split; [|reflexivity].
  run. unfold IPFS_URL. now rewrite !string_append_assoc.
Qed.

(** ** From the credential to the gate *)

Lemma member_string_is_object (decoded : Js.value) (k v : string) :
  Js.member decoded k = Js.VStr v ->
  exists fs, decoded = Js.VObj fs /\ Js.get_field k fs = Js.VStr v.
Proof. destruct decoded; try discriminate. eauto. Qed.

Lemma bearer_header_token (token : string) :
  no_space token = true ->
  extract_token (Some ("Bearer " +:+ token)) = Some token.
Proof.
  intros Ht. unfold extract_token.
  change ("Bearer " +:+ token) with ("Bearer" +:+ String " " token).
  now rewrite (split_first_part "Bearer" token eq_refl), (split_no_space token Ht).
Qed.

(** X17. Under the contract of the token library, the credential that
    [/verify] signs for [R] works at the granted gate as follows, when
    it is presented as [Bearer <token>] and the chain client is built:
    for one day after issuance the oracle is asked about exactly [R] and
    the request is admitted exactly when it answers true; from one day
    on the request is answered 403 [Forbidden] and the oracle is not
    asked. *)
Theorem issued_credential_at_gate (E : env) (L : libs) (W : world) (r : route)
    (q : request) (t0 : Z) (R token : string) :
  jwt_contract L ->
  jwt_sign L (Js.VObj [("walletAddress", Js.VStr R)]) (JWT_SECRET_KEY E)
           one_day t0 = inr token ->
  no_space token = true ->
  authorization q = Some ("Bearer " +:+ token) ->
  granted_gated r = true ->
  new_contract W = None ->
  (now W < t0 + 86400 ->
   granted_queries (handle E L W r q)
     = [(Js.VStr R, isGranted W (Js.VStr R))] /\
   (admitted (handle E L W r q) = true <-> isGranted W (Js.VStr R) = inr true)) /\
  (t0 + 86400 <= now W ->
   handle E L W r q =
     [EvJwtVerify token;
      EvNext (Some (HttpError "Forbidden" 403));
      EvSend (Js.VNum 403) (Js.VStr "Forbidden")]).
Proof.
  intros Hlib Hsign Hsp Hauth Hr Hc.
  assert (Hx : extract_token (authorization q) = Some token).
  { rewrite Hauth. now apply bearer_header_token. }
  destruct (Hlib _ _ _ _ _ Hsign (now W)) as [Hlive Hdead].
  unfold one_day in *. split.
  - intros Hearly. destruct (Hlive Hearly) as (decoded & Hv & Hk).
    assert (Hm : Js.member decoded "walletAddress" = Js.VStr R).
    { rewrite Hk; [reflexivity|]. simpl. discriminate. }
    destruct (member_string_is_object decoded _ _ Hm) as (fs & -> & Hfs).
    rewrite (granted_gate_log E L W r q token fs Hr Hx Hv), Hc, Hfs. simpl.
    destruct (isGranted W (Js.VStr R)) as [e|[]]; simpl.
    + destruct (responder_events_inert L e) as (Hadm & Hqs & _).
      unfold admitted. simpl. rewrite Hadm, Hqs.
      split; [reflexivity|]. split; discriminate.
    + assert (Hq : granted_queries (resource_events E r) = []).
      { destruct r; try discriminate Hr; reflexivity. }
      rewrite Hq. split; [reflexivity|]. split; reflexivity.
    + split; [reflexivity|]. split; discriminate.
  - intros Hlate. destruct (Hdead Hlate) as [e Hv].
    destruct r; try discriminate Hr; run_with ltac:(rewrite ?Hx, ?Hv); reflexivity.
Qed.

(** ** The further properties at concrete requests *)

Lemma signup_rejects_bad_address_witness :
  responses (handle Double.config Double.lib (Double.calm 1 true) Signup
               (Double.post []))
    = [(Js.VNum 400, Js.VStr "Missing wallet address")] /\
  responses (handle Double.config Double.lib (Double.calm 1 true) Signup
               (Double.post [("walletAddress", Js.VStr "0x123")]))
    = [(Js.VNum 400, Js.VStr "Invalid wallet address")].
Proof.
  split.
  - rewrite (proj1 (signup_rejects_bad_address Double.config Double.lib
                      (Double.calm 1 true) (Double.post [])) eq_refl).
    reflexivity.
  - rewrite (proj2 (signup_rejects_bad_address Double.config Double.lib
                      (Double.calm 1 true)
                      (Double.post [("walletAddress", Js.VStr "0x123")]))
               eq_refl eq_refl).
    reflexivity.
Defined.

Lemma verify_rejects_missing_parameters_witness :
  responses (handle Double.config Double.lib (Double.calm 1 true) Verify
               (Double.post [("signedMessage", Js.VStr "0x00")]))
    = [(Js.VNum 400, Js.VStr "Nonce not provided")] /\
  responses (handle Double.config Double.lib (Double.calm 1 true) Verify
               (Double.post [("nonce", Js.VStr "abc")]))
    = [(Js.VNum 400, Js.VStr "Signed message not provided")].
Proof.
  split.
  - rewrite (proj1 (verify_rejects_missing_parameters Double.config Double.lib
                      (Double.calm 1 true)
                      (Double.post [("signedMessage", Js.VStr "0x00")])) eq_refl).
    reflexivity.
  - rewrite (proj2 (verify_rejects_missing_parameters Double.config Double.lib
                      (Double.calm 1 true)
                      (Double.post [("nonce", Js.VStr "abc")])) eq_refl eq_refl).
    reflexivity.
Defined.

Lemma signup_then_verify_witness :
  responses (handle Double.config Double.lib (Double.calm 900 true) Signup
               (Double.post [("walletAddress", Js.VStr Double.alice)]))
    = [(Js.VNum 200, Js.VObj [("nonce", Js.VStr Double.nonce_alice)])] /\
  responses (handle Double.config Double.lib (Double.calm 1000 true) Verify
               Double.verify_request)
    = [(Js.VNum 200, Js.VObj [("token", Js.VStr Double.token_alice)])].
Proof.
  assert (Hsignup :
    responses (handle Double.config Double.lib (Double.calm 900 true) Signup
                 (Double.post [("walletAddress", Js.VStr Double.alice)]))
      = [(Js.VNum 200, Js.VObj [("nonce", Js.VStr Double.nonce_alice)])])
    by (vm_compute; reflexivity).
  split; [exact Hsignup|].
  refine (proj1 (signup_then_verify Double.config Double.lib
            (Double.calm 900 true) (Double.calm 1000 true)
            (Double.post [("walletAddress", Js.VStr Double.alice)])
            Double.verify_request Double.alice Double.alice Double.nonce_alice
            Double.token_alice _ _ _ Hsignup _ _ _ _ _));
    vm_compute; reflexivity.
Defined.

Lemma verify_signer_failure_witness :
  let unsigned := {| SECRET := Some "nonce-salt"; JWT_SECRET_KEY := None;
                     IPFS_HOST := None; IPFS_PORT := None |} in
  responses (handle unsigned Double.lib (Double.calm 1000 true) Verify
               Double.verify_request)
    = [(Js.VNum 500, Js.VStr "secretOrPrivateKey must have a value")].
Proof.
  intros unsigned.
  refine (eq_trans
            (proj2 (verify_signer_failure unsigned Double.lib (Double.calm 1000 true)
                      Double.verify_request Double.alice
                      "secretOrPrivateKey must have a value"
                      (Double.jwt_error "Error" "secretOrPrivateKey must have a value")
                      _ _ _ _ _ _ _)) _);
    vm_compute; reflexivity.
Defined.

Lemma extract_token_second_part_witness :
  extract_token (Some "Basic abc") = Some "abc" /\
  extract_token (Some "Basic abc def") = Some "abc".
Proof.
  destruct (extract_token_second_part "Basic" "abc" eq_refl eq_refl) as [H1 H2].
  split; [exact H1|exact (H2 "def")].
Defined.

Lemma rejected_token_forbidden_witness :
  responses (handle Double.config Double.lib (Double.calm 1 true) ApprovedWallets
               (Double.get (Some "Bearer garbage")))
    = [(Js.VNum 403, Js.VStr "Forbidden")].
Proof.
  rewrite (rejected_token_forbidden Double.config Double.lib (Double.calm 1 true)
             ApprovedWallets (Double.get (Some "Bearer garbage")) "garbage"
             (Double.jwt_error "JsonWebTokenError" "jwt malformed")
             eq_refl eq_refl eq_refl).
  reflexivity.
Defined.

Lemma contract_construction_failure_witness :
  let down := {| now := 2000; new_contract := Some Double.econnrefused;
                 isGranted := fun _ => inr true; isAdmin := fun _ => inr true;
                 graph_socket := [] |} in
  responses (handle Double.config Double.lib down Protected Double.bearer_alice)
    = [(Js.VNum 500, Js.VStr "Failed to get Ethereum contract")].
Proof.
  intros down.
  rewrite (contract_construction_failure Double.config Double.lib down Protected
             Double.bearer_alice Double.token_alice
             (Js.VObj [("walletAddress", Js.VStr Double.alice); ("exp", Js.VNum 87400)])
             Double.econnrefused eq_refl eq_refl eq_refl eq_refl).
  reflexivity.
Defined.

Lemma granted_gate_answers_witness :
  responses (handle Double.config Double.lib (Double.calm 2000 true) Protected
               Double.bearer_alice)
    = [(Js.VNum 200, Js.VStr "Hello! You are viewing protected content.")] /\
  responses (handle Double.config Double.lib (Double.calm 2000 false) ApiAdd
               Double.bearer_alice)
    = [(Js.VNum 401, Js.VStr "Unauthorized")].
Proof.
  split.
  - rewrite (proj1 (proj1 (granted_gate_answers Double.config Double.lib
               (Double.calm 2000 true) Double.bearer_alice Double.token_alice
               [("walletAddress", Js.VStr Double.alice); ("exp", Js.VNum 87400)]
               eq_refl eq_refl eq_refl) eq_refl)).
    reflexivity.
  - rewrite (proj2 (granted_gate_answers Double.config Double.lib
               (Double.calm 2000 false) Double.bearer_alice Double.token_alice
               [("walletAddress", Js.VStr Double.alice); ("exp", Js.VNum 87400)]
               eq_refl eq_refl eq_refl) eq_refl ApiAdd eq_refl).
    reflexivity.
Defined.

Lemma admin_gate_live_oracle_witness :
  admitted (handle Double.config Double.lib (Double.admin_world 2000 [])
              ApprovedWallets Double.bearer_alice) = true /\
  responses (handle Double.config Double.lib (Double.calm 2000 true)
               SubmittedWallets Double.bearer_alice)
    = [(Js.VNum 401, Js.VStr "Unauthorized")].
Proof.
  split.
  - apply (proj1 (admin_gate_live_oracle Double.config Double.lib
             (Double.admin_world 2000 []) ApprovedWallets Double.bearer_alice
             Double.token_alice
             [("walletAddress", Js.VStr Double.alice); ("exp", Js.VNum 87400)]
             eq_refl eq_refl eq_refl)).
    split; reflexivity.
  - rewrite (proj2 (admin_gate_live_oracle Double.config Double.lib
               (Double.calm 2000 true) SubmittedWallets Double.bearer_alice
               Double.token_alice
               [("walletAddress", Js.VStr Double.alice); ("exp", Js.VNum 87400)]
               eq_refl eq_refl eq_refl) eq_refl eq_refl).
    reflexivity.
Defined.

Lemma admin_route_returns_json_witness :
  responses (handle Double.config Double.lib
               (Double.admin_world 2000 [NetResponse; NetData "{"; NetData "}"; NetEnd])
               ApprovedWallets Double.bearer_alice)
    = [(Js.VNum 200, Js.VObj [])].
Proof.
  rewrite (admin_route_returns_json Double.config Double.lib
             (Double.admin_world 2000 [NetResponse; NetData "{"; NetData "}"; NetEnd])
             ApprovedWallets Double.bearer_alice Double.token_alice
             [("walletAddress", Js.VStr Double.alice); ("exp", Js.VNum 87400)]
             ["{"; "}"] (Js.VObj [])
             eq_refl eq_refl eq_refl eq_refl eq_refl eq_refl eq_refl
             ltac:(discriminate)).
  reflexivity.
Defined.

Lemma admin_route_late_error_witness :
  responses (handle Double.config Double.lib
               (Double.admin_world 2000
                  [NetResponse; NetData "{"; NetError Double.econnrefused])
               SubmittedWallets Double.bearer_alice)
    = [(Js.VNum 500,
        Js.VStr "Error querying submitted wallets with TheGraph Studio API")].
Proof.
  rewrite (admin_route_late_error Double.config Double.lib
             (Double.admin_world 2000
                [NetResponse; NetData "{"; NetError Double.econnrefused])
             SubmittedWallets Double.bearer_alice Double.token_alice
             [("walletAddress", Js.VStr Double.alice); ("exp", Js.VNum 87400)]
             ["{"] Double.econnrefused
             eq_refl eq_refl eq_refl eq_refl eq_refl eq_refl).
  reflexivity.
Defined.

Lemma admin_route_waits_witness :
  quiet [] = true /\
  responses (handle Double.config Double.lib (Double.admin_world 2000 [])
               ApprovedWallets Double.bearer_alice) = [].
Proof.
  split; [reflexivity|].
  exact (proj2 (admin_route_waits Double.config Double.lib
                  (Double.admin_world 2000 []) ApprovedWallets Double.bearer_alice
                  Double.token_alice
                  [("walletAddress", Js.VStr Double.alice); ("exp", Js.VNum 87400)]
                  eq_refl eq_refl eq_refl eq_refl eq_refl eq_refl)).
Defined.


Lemma issued_credential_at_gate_witness :
  jwt_contract Double.lib /\
  admitted (handle Double.config Double.lib (Double.calm 2000 true) Protected
              Double.bearer_alice) = true /\
  responses (handle Double.config Double.lib (Double.calm (1000 + 86400) true)
               Protected Double.bearer_alice)
    = [(Js.VNum 403, Js.VStr "Forbidden")].
Proof.
  split; [exact double_jwt_contract|]. split.
  - apply (proj1 (issued_credential_at_gate Double.config Double.lib
             (Double.calm 2000 true) Protected Double.bearer_alice 1000
             Double.alice Double.token_alice double_jwt_contract
             eq_refl eq_refl eq_refl eq_refl eq_refl)).
    + vm_compute. reflexivity.
    + reflexivity.
  - rewrite (proj2 (issued_credential_at_gate Double.config Double.lib
               (Double.calm (1000 + 86400) true) Protected Double.bearer_alice 1000
               Double.alice Double.token_alice double_jwt_contract
               eq_refl eq_refl eq_refl eq_refl eq_refl)).
    + reflexivity.
    + vm_compute. discriminate.
Defined.
